(** * Inventory reconciliation engine: a shallow embedding and its properties

    The engine lives in the main page component of the application: the
    two spreadsheet loaders ([handleFileImport],
    [handleFileImportForExcelCheck]), the free-text search
    ([handleSearchSubmit]), the count-mode scan ([handleScanSubmit]), the
    checklist toggle with its guided navigation ([handleCheckItem]), the
    filtered view ([filteredInventoryItems]) and the discrepancy summary
    ([excelCheckStats]).  React state is modelled by explicit state
    records; a handler is a function from the state before the event to
    the state after it. *)

From Stdlib Require Import ZArith String Ascii Lia Bool.
From stdpp Require Import base list strings gmap pretty.

Open Scope string_scope.

(** ** JavaScript values used by the engine *)

(** A [number] as the engine uses it: [NaN] or an integer.  Quantities,
    prices and counters are integers; a double represents every integer of
    magnitude up to 2^53 and adds and subtracts them exactly, so [Num]
    carries a [Z].  Fractions and infinities are not represented. *)
Inductive number : Type :=
  | NaN
  | Num (z : Z).

Definition isNaN (n : number) : bool :=
  match n with NaN => true | Num _ => false end.

(** [a + b] and [a - b]: NaN is absorbing. *)
Definition add (a b : number) : number :=
  match a, b with
  | Num x, Num y => Num (x + y)
  | _, _ => NaN
  end.

Definition sub (a b : number) : number :=
  match a, b with
  | Num x, Num y => Num (x - y)
  | _, _ => NaN
  end.

(** [a === b] on numbers: NaN differs from everything, itself included. *)
Definition strictEq (a b : number) : bool :=
  match a, b with
  | Num x, Num y => (x =? y)%Z
  | _, _ => false
  end.

(** Truthiness of a number: [0] and [NaN] are falsy. *)
Definition truthyNumber (n : number) : bool :=
  match n with
  | Num z => negb (z =? 0)%Z
  | NaN => false
  end.

(** [v || d] followed by [String(...)], on a cell value that is either
    absent ([undefined]) or a string: the empty string is falsy. *)
Definition truthy (v : option string) : bool :=
  match v with
  | Some s => negb (String.eqb s "")
  | None => false
  end.

Definition orString (v : option string) (d : string) : string :=
  match v with
  | Some s => if String.eqb s "" then d else s
  | None => d
  end.

(** [s.startsWith("'") ? s.substring(1) : s] *)
Definition stripQuote (s : string) : string :=
  match s with
  | String "'"%char rest => rest
  | _ => s
  end.

(** [s.includes(t)] *)
Fixpoint includes (s t : string) : bool :=
  String.prefix t s ||
  match s with
  | EmptyString => false
  | String _ rest => includes rest t
  end.

(** [\d] and [\w] of a regular expression without the unicode flag. *)
Definition isDigit (c : ascii) : bool :=
  let n := nat_of_ascii c in (48 <=? n)%nat && (n <=? 57)%nat.

Definition isWordChar (c : ascii) : bool :=
  let n := nat_of_ascii c in
  isDigit c || ((65 <=? n)%nat && (n <=? 90)%nat)
            || ((97 <=? n)%nat && (n <=? 122)%nat) || (n =? 95)%nat.

(** [s.replace(/\D/g, '')] *)
Fixpoint stripNonDigits (s : string) : string :=
  match s with
  | EmptyString => EmptyString
  | String c rest =>
      if isDigit c then String c (stripNonDigits rest) else stripNonDigits rest
  end.

(** [s.replace(/,/g, '')] *)
Fixpoint stripCommas (s : string) : string :=
  match s with
  | EmptyString => EmptyString
  | String c rest =>
      if Ascii.eqb c ","%char then stripCommas rest
      else String c (stripCommas rest)
  end.

(** The value of the longest prefix of decimal digits, read left to right
    from the accumulator [acc]; [None] when the string starts with no
    digit. *)
Fixpoint readDigits (acc : option Z) (s : string) : option Z :=
  match s with
  | EmptyString => acc
  | String c rest =>
      if isDigit c
      then readDigits
             (Some (10 * default 0%Z acc + Z.of_nat (nat_of_ascii c - 48))%Z)
             rest
      else acc
  end.

(** [parseInt(s, 10)] on a string that starts with neither white space
    nor a sign, which is how [parseFormattedNumber] calls it.  The digits
    are read as the integer they denote.  [parseInt] returns a double: it
    is that integer as long as the integer is at most [maxSafeInteger],
    and the nearest double above that (the text 9007199254740993 is read
    as 9007199254740992), which [number] does not model.  A statement on
    the value of a text of digits is about this code within that range
    only, and says so. *)
Definition parseInt10 (s : string) : number :=
  match readDigits None s with
  | Some z => Num z
  | None => NaN
  end.

(** [Number.MAX_SAFE_INTEGER], 2^53 - 1: up to it a double holds every
    integer exactly. *)
Definition maxSafeInteger : Z := 9007199254740991.

(** ** String built-ins that depend on the character set

    [toLowerCase] and [trim] work on the whole of Unicode, and [Number]
    reads every numeric literal of the language.  The engine is modelled
    over any implementation of the three; what it needs from them is that
    trimming the empty string gives the empty string.  Strings are byte
    sequences (UTF-8 for the literals of the source). *)
Class Builtins : Type := {
  toLowerCase : string -> string;
  trim : string -> string;
  Number : string -> number;
  trim_empty : trim "" = "";
}.

(** *** The built-ins on ASCII text *)

Definition asciiLower (c : ascii) : ascii :=
  let n := nat_of_ascii c in
  if (65 <=? n)%nat && (n <=? 90)%nat then ascii_of_nat (n + 32) else c.

Fixpoint asciiToLowerCase (s : string) : string :=
  match s with
  | EmptyString => EmptyString
  | String c rest => String (asciiLower c) (asciiToLowerCase rest)
  end.

Definition isAsciiSpace (c : ascii) : bool :=
  let n := nat_of_ascii c in
  ((9 <=? n)%nat && (n <=? 13)%nat) || (n =? 32)%nat.

Fixpoint trimStart (s : string) : string :=
  match s with
  | EmptyString => EmptyString
  | String c rest => if isAsciiSpace c then trimStart rest else s
  end.

(** Drops the trailing white space: a character stays when something
    other than white space follows it, or when it is not white space. *)
Fixpoint trimEnd (s : string) : string :=
  match s with
  | EmptyString => EmptyString
  | String c rest =>
      match trimEnd rest with
      | EmptyString => if isAsciiSpace c then EmptyString else String c EmptyString
      | rest' => String c rest'
      end
  end.

Definition asciiTrim (s : string) : string := trimEnd (trimStart s).

Definition allDigits (s : string) : bool :=
  negb (String.eqb s "") && String.eqb (stripNonDigits s) s.

(** [Number(s)] on text that is blank, a decimal integer literal with an
    optional sign, or no numeric literal at all.  The other numeric
    literals (a fraction, an exponent, a radix prefix, Infinity) denote
    numbers that [number] does not hold: the instance is meant for text
    without them. *)
Definition asciiNumber (s : string) : number :=
  match asciiTrim s with
  | EmptyString => Num 0
  | String "-"%char ds => if allDigits ds then sub (Num 0) (parseInt10 ds) else NaN
  | String "+"%char ds => if allDigits ds then parseInt10 ds else NaN
  | ds => if allDigits ds then parseInt10 ds else NaN
  end.

#[export] Instance asciiBuiltins : Builtins := {|
  toLowerCase := asciiToLowerCase;
  trim := asciiTrim;
  Number := asciiNumber;
  trim_empty := eq_refl;
|}.

(** ** Helpers shared by the two loaders *)

Section Helpers.
Context `{Builtins}.

(** [parseFormattedNumber]: keep the digits, read them in base 10, and
    turn the NaN of the empty digit string into 0. *)
Definition parseFormattedNumber (value : string) : number :=
  let rawValue := stripNonDigits value in
  let number := parseInt10 rawValue in
  if isNaN number then Num 0 else number.

(** A row of the sheet: column header and formatted cell text, in the
    order in which the object enumerates its keys.  With [raw: false]
    every cell arrives as text; an empty cell has no entry. *)
Definition Row : Type := list (string * string).

(** The inner loop of [findValue]: the first key of the row that equals
    the target once lower-cased and trimmed. *)
Fixpoint findInRow (lowerTargetKey : string) (row : Row) : option string :=
  match row with
  | [] => None
  | (rowKey, v) :: rest =>
      if String.eqb (trim (toLowerCase rowKey)) lowerTargetKey
      then Some v
      else findInRow lowerTargetKey rest
  end.

(** [findValue]: the aliases are tried in order, the first one that some
    key of the row matches wins. *)
Fixpoint findValue (row : Row) (keys : list string) : option string :=
  match keys with
  | [] => None
  | targetKey :: more =>
      match findInRow (trim (toLowerCase targetKey)) row with
      | Some v => Some v
      | None => findValue row more
      end
  end.

(** [/\btv\b/.test(s)]: an occurrence of "tv" with no word character
    right before it and none right after it. *)
Definition startsWithWordChar (s : string) : bool :=
  match s with
  | String c _ => isWordChar c
  | EmptyString => false
  end.

Fixpoint hasWordTv (prevIsWord : bool) (s : string) : bool :=
  match s with
  | EmptyString => false
  | String c rest =>
      (negb prevIsWord && String.prefix "tv" s
       && negb (startsWithWordChar (String.substring 2 (String.length s) s)))
      || hasWordTv (isWordChar c) rest
  end.

(** [getCategoryFromProductName] *)
Definition getCategoryFromProductName (name : string) : string :=
  if String.eqb name "" then "default" else
  let lowerName := trim (toLowerCase name) in
  if String.eqb lowerName "" then "default" else
  if String.prefix "tivi" lowerName || String.prefix "ti vi" lowerName
     || String.prefix "tv" lowerName || hasWordTv false lowerName
  then "tivi" else
  if includes lowerName "tủ lạnh" then "tủ lạnh" else
  if includes lowerName "máy giặt" then "máy giặt" else
  if includes lowerName "máy lạnh" || includes lowerName "điều hòa"
  then "máy lạnh" else
  if includes lowerName "điện thoại" then "điện thoại" else
  if includes lowerName "loa" then "loa" else
  "default".

(** The category of a loaded row: the one derived from the name, else
    the row's own category column, else ["N/A"]. *)
Definition finalCategory (productName originalCategory : option string) : string :=
  let derivedCategory := getCategoryFromProductName (orString productName "") in
  if String.eqb derivedCategory "default"
  then orString originalCategory "N/A"
  else derivedCategory.

End Helpers.

(** ** Checklist mode and free-text search (the inventory page) *)

Module Inventory.

Record InventoryItem : Type := mkInventoryItem {
  qrCode : string;                (* the IMEI if present, else the product code *)
  productCodeForSearch : string;  (* always the product code *)
  productName : string;
  quantity : number;
  price : number;
  checked : bool;
  hasImei : bool;
  status : string;
  category : string;
}.

(** The values of the IMEI filter: ['all'], ['with_imei'], ['without_imei']. *)
Inductive ImeiFilter : Type := All | WithImei | WithoutImei.

(** The state of the page that the engine reads and writes.  The status
    and category filters hold ['all'] or the value to keep; an entry of
    the search history pairs the query with the record found, or with
    [None] for [null]. *)
Record State : Type := mkState {
  inventoryItems : list InventoryItem;
  imeiFilter : ImeiFilter;
  statusFilter : string;
  categoryFilter : string;
  searchQuery : string;
  searchHistory : list (string * option InventoryItem);
  isSuggestionsVisible : bool;
}.

Definition setInventoryItems (items : list InventoryItem) (st : State) : State :=
  {| inventoryItems := items;
     imeiFilter := imeiFilter st;
     statusFilter := statusFilter st;
     categoryFilter := categoryFilter st;
     searchQuery := searchQuery st;
     searchHistory := searchHistory st;
     isSuggestionsVisible := isSuggestionsVisible st |}.

(** [{ ...item, checked: !item.checked }] *)
Definition toggleChecked (item : InventoryItem) : InventoryItem :=
  {| qrCode := qrCode item;
     productCodeForSearch := productCodeForSearch item;
     productName := productName item;
     quantity := quantity item;
     price := price item;
     checked := negb (checked item);
     hasImei := hasImei item;
     status := status item;
     category := category item |}.

(** [inventoryItems.map((item, i) => i === originalIndex ? {...} : item)] *)
Definition toggleAt (originalIndex : nat) (items : list InventoryItem)
  : list InventoryItem :=
  imap (fun i item => if (i =? originalIndex)%nat then toggleChecked item else item)
       items.

Section Engine.
Context `{Builtins}.

(** The callback of [json.map] in [handleFileImport]: one record for
    the row, whatever the row holds. *)
Definition loadRow (row : Row) : InventoryItem :=
  let imei := findValue row ["IMEI_1"] in
  let productCode := findValue row ["Mã sản phẩm"] in
  let productName := findValue row ["Tên sản phẩm"] in
  let quantity := findValue row ["Số lượng"] in
  let status := findValue row ["trạng thái sản phẩm"] in
  let originalCategory := findValue row ["Ngành hàng"] in
  let priceString := orString (findValue row ["Giá bán"; "Giá"]) "0" in
  let rawQrCodeValue := stripQuote (trim (orString imei (orString productCode ""))) in
  let rawProductCodeValue := stripQuote (trim (orString productCode "")) in
  {| qrCode := rawQrCodeValue;
     productCodeForSearch := rawProductCodeValue;
     productName := orString productName "N/A";
     quantity := Number (stripCommas (orString quantity "0"));
     price := parseFormattedNumber priceString;
     checked := false;
     hasImei := truthy imei;
     status := orString status "N/A";
     category := finalCategory productName originalCategory |}.

(** [handleFileImport], from the parsed sheet on: the loaded records
    replace the old ones, filters, history and query are reset. *)
Definition handleFileImport (json : list Row) (st : State) : State :=
  {| inventoryItems := map loadRow json;
     imeiFilter := All;
     statusFilter := "all";
     categoryFilter := "all";
     searchQuery := "";
     searchHistory := [];
     isSuggestionsVisible := isSuggestionsVisible st |}.

(** [.map((item, index) => ({ ...item, originalIndex: index }))] *)
Definition withOriginalIndex (items : list InventoryItem)
  : list (nat * InventoryItem) :=
  imap (fun index item => (index, item)) items.

Definition passesImei (f : ImeiFilter) (e : nat * InventoryItem) : bool :=
  match f with
  | All => true
  | WithImei => hasImei (snd e)
  | WithoutImei => negb (hasImei (snd e))
  end.

Definition passesStatus (f : string) (e : nat * InventoryItem) : bool :=
  if String.eqb f "all" then true else String.eqb (status (snd e)) f.

Definition passesCategory (f : string) (e : nat * InventoryItem) : bool :=
  if String.eqb f "all" then true else String.eqb (category (snd e)) f.

(** The three [.filter] calls, one after the other. *)
Definition applyFilters (fi : ImeiFilter) (fs fc : string)
    (l : list (nat * InventoryItem)) : list (nat * InventoryItem) :=
  List.filter (passesCategory fc)
    (List.filter (passesStatus fs) (List.filter (passesImei fi) l)).

(** [filteredInventoryItems]: the visible subset, each record with
    its index in the full list. *)
Definition filteredInventoryItems (st : State) : list (nat * InventoryItem) :=
  applyFilters (imeiFilter st) (statusFilter st) (categoryFilter st)
    (withOriginalIndex (inventoryItems st)).

(** [for (let i = from; i < from + n; i++) if (!l[i].checked) { ...; break }]:
    the first index in the range whose record is unchecked. *)
Fixpoint firstUnchecked (l : list (nat * InventoryItem)) (from n : nat)
  : option nat :=
  match n with
  | O => None
  | S n' =>
      match l !! from with
      | Some e =>
          if negb (checked (snd e)) then Some from
          else firstUnchecked l (S from) n'
      | None => None
      end
  end.

(** [handleCheckItem]: the state after the toggle, and the original
    index of the record to scroll to, if any. *)
Definition handleCheckItem (originalIndex : nat) (st : State)
  : State * option nat :=
  let newItems := toggleAt originalIndex (inventoryItems st) in
  let st' := setInventoryItems newItems st in
  let futureFilteredItems :=
    applyFilters (imeiFilter st) (statusFilter st) (categoryFilter st)
      (withOriginalIndex newItems) in
  match list_find (fun e => fst e = originalIndex) futureFilteredItems with
  | None => (st', None)
  | Some (currentFilteredIndex, _) =>
      let nextUncheckedFilteredIndex :=
        match firstUnchecked futureFilteredItems (S currentFilteredIndex)
                (length futureFilteredItems - S currentFilteredIndex) with
        | Some i => Some i
        | None => firstUnchecked futureFilteredItems 0 currentFilteredIndex
        end in
      match nextUncheckedFilteredIndex with
      | Some i => (st', fst <$> futureFilteredItems !! i)
      | None => (st', None)
      end
  end.

(** The test of [inventoryItems.find] in [handleSearchSubmit]: the
    QR value or the product code, non-empty, equals the query once
    trimmed and lower-cased. *)
Definition keyMatches (query : string) (item : InventoryItem) : bool :=
  (negb (String.eqb (qrCode item) "")
   && String.eqb (toLowerCase (trim (qrCode item))) query)
  || (negb (String.eqb (productCodeForSearch item) "")
      && String.eqb (toLowerCase (trim (productCodeForSearch item))) query).

Definition nameMatches (query : string) (item : InventoryItem) : bool :=
  includes (toLowerCase (productName item)) query.

(** The record [handleSearchSubmit] resolves the lower-cased query
    to: the first record a key of which matches, with its index;
    else the first record whose name contains the query. *)
Definition findByKey (items : list InventoryItem) (query : string)
  : option (nat * InventoryItem) :=
  list_find (fun item => keyMatches query item) items.

Definition resolveSearch (items : list InventoryItem) (query : string)
  : option InventoryItem :=
  match findByKey items query with
  | Some (_, item) => Some item
  | None => head (List.filter (nameMatches query) items)
  end.

(** [handleSearchSubmit] *)
Definition handleSearchSubmit (st : State) : State :=
  if String.eqb (trim (searchQuery st)) "" then st else
  let query := toLowerCase (trim (searchQuery st)) in
  let foundItem := resolveSearch (inventoryItems st) query in
  {| inventoryItems := inventoryItems st;
     imeiFilter := imeiFilter st;
     statusFilter := statusFilter st;
     categoryFilter := categoryFilter st;
     searchQuery := "";
     searchHistory := (trim (searchQuery st), foundItem) :: searchHistory st;
     isSuggestionsVisible := false |}.

End Engine.

End Inventory.


(** ** Count mode and the discrepancy summary (the transfer-check page) *)

Module ExcelCheck.

Record ExcelCheckItem : Type := mkExcelCheckItem {
  productCode : string;
  productName : string;
  fileQuantity : number;
  actualQuantity : option number;   (* [None] is [null]: not yet counted *)
  imei : option string;             (* [None] is [undefined] *)
  category : string;
}.

Inductive ScanStatusType : Type := idle | success | error.

Record ScanStatus : Type := mkScanStatus {
  type : ScanStatusType;
  message : string;
}.

(** The state of the page.  [lastScannedIndex] drives a highlight that a
    timer clears one second later; the timer is not modelled. *)
Record State : Type := mkState {
  excelCheckItems : list ExcelCheckItem;
  scanQuery : string;
  scanStatus : ScanStatus;
  lastScannedIndex : option nat;
}.

Definition setScanQuery (q : string) (st : State) : State :=
  {| excelCheckItems := excelCheckItems st;
     scanQuery := q;
     scanStatus := scanStatus st;
     lastScannedIndex := lastScannedIndex st |}.

Definition setActualQuantity (a : option number) (item : ExcelCheckItem)
  : ExcelCheckItem :=
  {| productCode := productCode item;
     productName := productName item;
     fileQuantity := fileQuantity item;
     actualQuantity := a;
     imei := imei item;
     category := category item |}.

(** [actualQuantity || 0]: [null], [0] and [NaN] give [0]. *)
Definition orZero (a : option number) : number :=
  match a with
  | Some n => if truthyNumber n then n else Num 0
  | None => Num 0
  end.

(** [(actualQuantity || 0) + 1], the count after one more scan. *)
Definition increment (a : option number) : option number :=
  Some (add (orZero a) (Num 1)).

(** The accumulator of [excelCheckStats].  The two counters start at 0
    and only ever grow by one: they are integers. *)
Record Stats : Type := mkStats {
  totalFileQuantity : number;
  totalActualQuantity : number;
  matchedCount : Z;
  mismatchedCount : Z;
}.

(** The callback of [reduce] in [excelCheckStats]. *)
Definition statsStep (acc : Stats) (item : ExcelCheckItem) : Stats :=
  let total := add (totalFileQuantity acc) (fileQuantity item) in
  match actualQuantity item with
  | Some actual =>
      let difference := sub actual (fileQuantity item) in
      if strictEq difference (Num 0)
      then {| totalFileQuantity := total;
              totalActualQuantity := add (totalActualQuantity acc) actual;
              matchedCount := matchedCount acc + 1;
              mismatchedCount := mismatchedCount acc |}
      else {| totalFileQuantity := total;
              totalActualQuantity := add (totalActualQuantity acc) actual;
              matchedCount := matchedCount acc;
              mismatchedCount := mismatchedCount acc + 1 |}
  | None =>
      {| totalFileQuantity := total;
         totalActualQuantity := totalActualQuantity acc;
         matchedCount := matchedCount acc;
         mismatchedCount := mismatchedCount acc |}
  end.

(** [excelCheckStats] *)
Definition excelCheckStats (items : list ExcelCheckItem) : Stats :=
  fold_left statsStep items
    {| totalFileQuantity := Num 0; totalActualQuantity := Num 0;
       matchedCount := 0; mismatchedCount := 0 |}.

Section Engine.
Context `{Builtins}.

(** The callback of [json.map] in [handleFileImportForExcelCheck]. *)
Definition loadRow (row : Row) : ExcelCheckItem :=
  let productCode := stripQuote (trim (orString (findValue row ["Mã sản phẩm"]) "N/A")) in
  let productName := findValue row ["Tên sản phẩm"] in
  let quantity := findValue row ["Số lượng"] in
  let imei := findValue row ["IMEI_1"] in
  let imei :=
    if truthy imei then stripQuote (trim (orString imei "")) else "" in
  let originalCategory := findValue row ["Ngành hàng"] in
  {| productCode := productCode;
     productName := orString productName "N/A";
     fileQuantity := Number (stripCommas (orString quantity "0"));
     actualQuantity := None;
     imei := if String.eqb imei "" then None else Some imei;
     category := finalCategory productName originalCategory |}.

(** [handleFileImportForExcelCheck], from the parsed sheet on. *)
Definition handleFileImportForExcelCheck (json : list Row) (st : State) : State :=
  {| excelCheckItems := map loadRow json;
     scanQuery := scanQuery st;
     scanStatus := {| type := idle; message := "Sẵn sàng quét..." |};
     lastScannedIndex := lastScannedIndex st |}.

(** [cleanString] of [handleScanSubmit]: an absent or empty value gives
    the empty string; else trim, drop one leading quote, lower-case. *)
Definition cleanString (str : option string) : string :=
  if truthy str
  then toLowerCase (stripQuote (trim (orString str "")))
  else "".

(** The two [findIndex] passes of [handleScanSubmit]: the product codes
    first, the IMEIs only when no product code matches.  The result is
    the index found and the record at that index. *)
Definition findByProductCode (items : list ExcelCheckItem) (sanitizedQuery : string)
  : option (nat * ExcelCheckItem) :=
  list_find (fun item => cleanString (Some (productCode item)) = sanitizedQuery) items.

Definition findByImei (items : list ExcelCheckItem) (sanitizedQuery : string)
  : option (nat * ExcelCheckItem) :=
  list_find (fun item => cleanString (imei item) = sanitizedQuery) items.

Definition findScanned (items : list ExcelCheckItem) (sanitizedQuery : string)
  : option (nat * ExcelCheckItem) :=
  match findByProductCode items sanitizedQuery with
  | Some found => Some found
  | None => findByImei items sanitizedQuery
  end.

(** [handleScanSubmit].  The handler copies the array and updates the
    found record in place; the records are not shared between indices,
    so the new array differs from the old one at the found index only. *)
Definition handleScanSubmit (st : State) : State :=
  let query := trim (scanQuery st) in
  if String.eqb query "" then st else
  let sanitizedQuery := toLowerCase (stripQuote query) in
  match findScanned (excelCheckItems st) sanitizedQuery with
  | Some (foundIndex, itemToUpdate) =>
      let updated :=
        setActualQuantity (increment (actualQuantity itemToUpdate)) itemToUpdate in
      {| excelCheckItems := <[foundIndex := updated]> (excelCheckItems st);
         scanQuery := "";
         scanStatus := {| type := success;
                          message := "Đã cập nhật: " +:+ productName itemToUpdate |};
         lastScannedIndex := Some foundIndex |}
  | None =>
      {| excelCheckItems := excelCheckItems st;
         scanQuery := "";
         scanStatus := {| type := error;
                          message := "Không tìm thấy sản phẩm với mã: " +:+ query |};
         lastScannedIndex := lastScannedIndex st |}
  end.

(** Typing [q] into the scan box and submitting it, and doing so [n]
    times in a row. *)
Definition scan (q : string) (st : State) : State :=
  handleScanSubmit (setScanQuery q st).

Definition scanTimes (n : nat) (q : string) (st : State) : State :=
  Nat.iter n (scan q) st.

End Engine.

End ExcelCheck.


(** ** Notions of the specification *)

(** The display name of a row, and whether the row has a non-empty one. *)
Definition displayName `{Builtins} (row : Row) : option string :=
  findValue row ["Tên sản phẩm"].

Definition hasDisplayName `{Builtins} (row : Row) : bool :=
  truthy (displayName row).

(** The sum of a list of numbers. *)
Fixpoint sumNumbers (l : list number) : number :=
  match l with
  | [] => Num 0
  | n :: rest => add n (sumNumbers rest)
  end.

(** The actual quantities of the records that have been counted. *)
Definition countedQuantities (items : list ExcelCheck.ExcelCheckItem) : list number :=
  omap ExcelCheck.actualQuantity items.

(** The discrepancy of a record: actual minus expected quantity, for a
    counted record; matched when it is 0, surplus above, deficit below. *)
Definition difference (item : ExcelCheck.ExcelCheckItem) : option number :=
  (fun actual => sub actual (ExcelCheck.fileQuantity item))
    <$> ExcelCheck.actualQuantity item.

Definition isMatched (item : ExcelCheck.ExcelCheckItem) : bool :=
  match difference item with
  | Some (Num d) => (d =? 0)%Z
  | _ => false
  end.

Definition isSurplus (item : ExcelCheck.ExcelCheckItem) : bool :=
  match difference item with
  | Some (Num d) => (0 <? d)%Z
  | _ => false
  end.

Definition isDeficit (item : ExcelCheck.ExcelCheckItem) : bool :=
  match difference item with
  | Some (Num d) => (d <? 0)%Z
  | _ => false
  end.

(** A counted record whose difference is not 0. *)
Definition isMismatched (item : ExcelCheck.ExcelCheckItem) : bool :=
  match difference item with
  | Some d => negb (strictEq d (Num 0))
  | None => false
  end.

Definition countIf {A : Type} (p : A -> bool) (l : list A) : Z :=
  Z.of_nat (length (List.filter p l)).

(** The quantities of a record are integers. *)
Definition integerQuantities (item : ExcelCheck.ExcelCheckItem) : Prop :=
  isNaN (ExcelCheck.fileQuantity item) = false /\
  forall a, ExcelCheck.actualQuantity item = Some a -> isNaN a = false.

(** The target of the guided sweep, in the words of the specification:
    from the position of the toggled record in the filtered subset,
    search forward, wrapping to the start, for the first record that is
    not verified; the result is that record's index in the full list. *)
Definition nextUnverifiedTarget
    (filtered : list (nat * Inventory.InventoryItem)) (currentIndex : nat)
  : option nat :=
  (fun found => fst (snd found))
    <$> list_find (fun e => Inventory.checked (snd e) = false)
          (drop (S currentIndex) filtered ++ take currentIndex filtered).

(** ** Concrete inputs *)

Definition emptyInventory : Inventory.State :=
  {| Inventory.inventoryItems := [];
     Inventory.imeiFilter := Inventory.All;
     Inventory.statusFilter := "all";
     Inventory.categoryFilter := "all";
     Inventory.searchQuery := "";
     Inventory.searchHistory := [];
     Inventory.isSuggestionsVisible := false |}.

Definition emptyExcelCheck : ExcelCheck.State :=
  {| ExcelCheck.excelCheckItems := [];
     ExcelCheck.scanQuery := "";
     ExcelCheck.scanStatus :=
       {| ExcelCheck.type := ExcelCheck.idle; ExcelCheck.message := "Sẵn sàng quét..." |};
     ExcelCheck.lastScannedIndex := None |}.

Definition inventoryOf (items : list Inventory.InventoryItem) (q : string)
  : Inventory.State :=
  {| Inventory.inventoryItems := items;
     Inventory.imeiFilter := Inventory.All;
     Inventory.statusFilter := "all";
     Inventory.categoryFilter := "all";
     Inventory.searchQuery := q;
     Inventory.searchHistory := [];
     Inventory.isSuggestionsVisible := false |}.

Definition excelCheckOf (items : list ExcelCheck.ExcelCheckItem)
  : ExcelCheck.State :=
  {| ExcelCheck.excelCheckItems := items;
     ExcelCheck.scanQuery := "";
     ExcelCheck.scanStatus :=
       {| ExcelCheck.type := ExcelCheck.idle; ExcelCheck.message := "Sẵn sàng quét..." |};
     ExcelCheck.lastScannedIndex := None |}.

(** A sheet with two rows, product codes A1 and B2, quantities 5 and 3. *)
Definition sheetA1B2 : list Row :=
  [ [("Mã sản phẩm", "A1"); ("Số lượng", "5")];
    [("Mã sản phẩm", "B2"); ("Số lượng", "3")] ].

(** A sheet whose two rows have the same product code. *)
Definition sheetA1A1 : list Row :=
  [ [("Tên sản phẩm", "Loa JBL"); ("Mã sản phẩm", "A1"); ("Số lượng", "5")];
    [("Tên sản phẩm", "Loa Sony"); ("Mã sản phẩm", "A1"); ("Số lượng", "3")] ].

(** A sheet whose second row has no display name. *)
Definition sheetNameless : list Row :=
  [ [("Tên sản phẩm", "Loa JBL"); ("Mã sản phẩm", "A1"); ("Số lượng", "5")];
    [("Mã sản phẩm", "B2"); ("Số lượng", "3")] ].

(** A sheet with a quantity cell that is no number. *)
Definition sheetBadQuantity : list Row :=
  [ [("Tên sản phẩm", "Loa JBL"); ("Mã sản phẩm", "A1");
     ("Số lượng", "abc"); ("Giá bán", "abc")] ].

(** A sheet where the product code of the first row is the IMEI of the
    second one, and the same sheet with the two rows swapped. *)
Definition rowCodeX1 : Row :=
  [("Tên sản phẩm", "Loa JBL"); ("Mã sản phẩm", "X1"); ("Số lượng", "1")].

Definition rowImeiX1 : Row :=
  [("Tên sản phẩm", "Loa Sony"); ("Mã sản phẩm", "Y2"); ("IMEI_1", "X1");
   ("Số lượng", "1")].

Definition sheetCodeThenImei : list Row := [rowCodeX1; rowImeiX1].
Definition sheetImeiThenCode : list Row := [rowImeiX1; rowCodeX1].



(** Three counted records of expected quantity 5, by their actual
    quantities. *)
Definition counted (actual : Z) : ExcelCheck.ExcelCheckItem :=
  {| ExcelCheck.productCode := "A1";
     ExcelCheck.productName := "Loa JBL";
     ExcelCheck.fileQuantity := Num 5;
     ExcelCheck.actualQuantity := Some (Num actual);
     ExcelCheck.imei := None;
     ExcelCheck.category := "loa" |}.

Definition twoSurplusOneDeficit : list ExcelCheck.ExcelCheckItem :=
  [counted 6; counted 6; counted 4].

Definition oneSurplusTwoDeficit : list ExcelCheck.ExcelCheckItem :=
  [counted 8; counted 4; counted 4].

(** Four inventory records, the second one already checked, the third
    one without IMEI. *)
Definition inventoryRecord (code : string) (isChecked withImei : bool)
  : Inventory.InventoryItem :=
  {| Inventory.qrCode := code;
     Inventory.productCodeForSearch := code;
     Inventory.productName := "Loa JBL";
     Inventory.quantity := Num 1;
     Inventory.price := Num 0;
     Inventory.checked := isChecked;
     Inventory.hasImei := withImei;
     Inventory.status := "N/A";
     Inventory.category := "loa" |}.

Definition sweepState : Inventory.State :=
  {| Inventory.inventoryItems :=
       [inventoryRecord "A1" false true; inventoryRecord "B2" true true;
        inventoryRecord "C3" false false; inventoryRecord "D4" false true];
     Inventory.imeiFilter := Inventory.WithImei;
     Inventory.statusFilter := "all";
     Inventory.categoryFilter := "all";
     Inventory.searchQuery := "";
     Inventory.searchHistory := [];
     Inventory.isSuggestionsVisible := false |}.


(** ** More of the page: manual counts, suggestions, resets *)

(** [a * b], [a < b] and [a > b] on numbers: a product with NaN is NaN, a
    comparison with NaN is false. *)
Definition mul (a b : number) : number :=
  match a, b with
  | Num x, Num y => Num (x * y)
  | _, _ => NaN
  end.

Definition ltNumber (a b : number) : bool :=
  match a, b with
  | Num x, Num y => (x <? y)%Z
  | _, _ => false
  end.

Definition gtNumber (a b : number) : bool := ltNumber b a.

Section ParseInt.
Context `{Builtins}.

(** [parseInt(s, 10)]: leading white space is skipped, a sign is read,
    then the longest run of decimal digits; NaN when there is no digit.
    What follows the digits is ignored, so that trimming both ends of the
    text reads the same number as skipping the leading white space. *)
Definition parseInt (s : string) : number :=
  match trim s with
  | String "-"%char digits => sub (Num 0) (parseInt10 digits)
  | String "+"%char digits => parseInt10 digits
  | digits => parseInt10 digits
  end.

End ParseInt.

Module ExcelCheckEdit.
Import ExcelCheck.

(** [mismatchedItems]: the counted records whose actual quantity is not
    the expected one. *)
Definition isMismatchedItem (item : ExcelCheckItem) : bool :=
  match actualQuantity item with
  | Some actual => negb (strictEq actual (fileQuantity item))
  | None => false
  end.

Definition mismatchedItems (items : list ExcelCheckItem) : list ExcelCheckItem :=
  List.filter isMismatchedItem items.

(** [handleExcelCheckReset] *)
Definition handleExcelCheckReset (st : State) : State :=
  {| excelCheckItems := [];
     scanQuery := "";
     scanStatus := {| type := idle; message := "Sẵn sàng quét..." |};
     lastScannedIndex := lastScannedIndex st |}.

Section Edit.
Context `{Builtins}.

(** [handleActualQuantityChange]: the typed text replaces the count of
    the record at [index]; text that reads as no number, or as a negative
    one, clears the count.  The assignment to [newItems[index]] throws
    when the index is outside the list: [None]. *)
Definition handleActualQuantityChange (index : nat) (value : string) (st : State)
  : option State :=
  match excelCheckItems st !! index with
  | None => None
  | Some item =>
      let numberValue := parseInt value in
      let actual :=
        if isNaN numberValue || ltNumber numberValue (Num 0)
        then None else Some numberValue in
      Some {| excelCheckItems :=
                <[index := setActualQuantity actual item]> (excelCheckItems st);
              scanQuery := scanQuery st;
              scanStatus := scanStatus st;
              lastScannedIndex := lastScannedIndex st |}
  end.

End Edit.

End ExcelCheckEdit.

Module InventoryView.
Import Inventory.

(** The pages of the application. *)
Inductive Page : Type :=
  | trang_chu | kiem_quy | kiem_tra_ton_kho | kiem_ke | thong_tin
  | kiem_hang_chuyen_kho | thay_posm | ma_qr | tinh_thuong.

Definition onSearchPage (p : Page) : bool :=
  match p with kiem_tra_ton_kho => true | _ => false end.

(** [handleInventoryReset] *)
Definition handleInventoryReset (st : State) : State :=
  {| inventoryItems := [];
     imeiFilter := All;
     statusFilter := "all";
     categoryFilter := "all";
     searchQuery := "";
     searchHistory := [];
     isSuggestionsVisible := isSuggestionsVisible st |}.

(** [handleSuggestionClick] *)
Definition handleSuggestionClick (item : InventoryItem) (st : State) : State :=
  {| inventoryItems := inventoryItems st;
     imeiFilter := imeiFilter st;
     statusFilter := statusFilter st;
     categoryFilter := categoryFilter st;
     searchQuery := "";
     searchHistory := (productName item, Some item) :: searchHistory st;
     isSuggestionsVisible := false |}.

Section Suggestions.
Context `{Builtins}.

(** The [length] of a string counts UTF-16 code units, which the byte
    strings of this development do not determine: it is a parameter. *)
Variable codeUnits : string -> nat.

(** The effect that follows [searchQuery]: the suggestions, and whether
    their list is shown.  The query is lower-cased but not trimmed. *)
Definition suggestionsFor (currentPage : Page) (st : State)
  : list (nat * InventoryItem) * bool :=
  if onSearchPage currentPage && (1 <? codeUnits (trim (searchQuery st)))%nat
  then
    let lowerCaseQuery := toLowerCase (searchQuery st) in
    let filteredSuggestions :=
      take 7 (List.filter (fun e => nameMatches lowerCaseQuery (snd e))
                (withOriginalIndex (inventoryItems st))) in
    (filteredSuggestions, (0 <? length filteredSuggestions)%nat)
  else ([], false).

End Suggestions.

End InventoryView.

(** ** The cash count (the fund-check page) *)

Module FundCheck.

(** The bank notes, as [denominations] lists them. *)
Definition denominations : list Z :=
  [500000; 200000; 100000; 50000; 20000; 10000; 5000; 2000; 1000]%Z.

(** The state of the page: the number of notes per denomination, the
    fund to check and the small change left out of the count.  The time
    of the last reset and the saved history are not modelled. *)
Record State : Type := mkState {
  counts : gmap Z number;
  targetFund : number;
  smallChange : number;
}.





(** [subtotals]: the object built by the reduce, as the list of its
    entries in the order of [denominations]. *)
Definition subtotals (c : gmap Z number) : list (Z * number) :=
  map (fun d => (d, mul (Num d) (ExcelCheck.orZero (c !! d)))) denominations.

(** [totalCash].  [Object.values] lists the entries by ascending key,
    which is [denominations] backwards; [reduce] adds from the left. *)
Definition totalCash (c : gmap Z number) : number :=
  fold_left add (map snd (reverse (subtotals c))) (Num 0).

Definition adjustedTargetFund (st : State) : number :=
  sub (targetFund st) (smallChange st).

Definition difference (st : State) : number :=
  sub (totalCash (counts st)) (adjustedTargetFund st).



Section Counting.
Context `{Builtins}.

(** [handleCountChange]: the value is the text of the input or a
    number; what reads as no number or as a negative one is stored as 0. *)
Definition handleCountChange (denomination : Z) (value : string + number)
    (st : State) : State :=
  let newCount :=
    match value with
    | inl text => parseInt text
    | inr n => n
    end in
  {| counts :=
       <[denomination :=
           if isNaN newCount || ltNumber newCount (Num 0) then Num 0 else newCount]>
         (counts st);
     targetFund := targetFund st;
     smallChange := smallChange st |}.

End Counting.

End FundCheck.



(** A count that is absent or a non-negative integer. *)
Definition validActual (a : option number) : Prop :=
  match a with
  | None => True
  | Some (Num k) => (0 <= k)%Z
  | Some NaN => False
  end.

(** ** Selections kept as lists (the bonus page and the price-tag page) *)

Module Bonus.

Record BonusItem : Type := mkBonusItem {
  description : string;
  amount : number;
}.

(** [toggleBonusItem], on the list of excluded indices: an excluded
    index is taken out, another one is added at the end. *)
Definition toggleBonusItem (index : nat) (prev : list nat) : list nat :=
  if bool_decide (index ∈ prev)
  then List.filter (fun i => negb (i =? index)%nat) prev
  else (prev ++ [index])%list.

(** [activeBonusItems]: the items whose index is not excluded. *)
Definition activeBonusItems (bonusItems : list BonusItem) (excludedBonusIndices : list nat)
  : list BonusItem :=
  map snd
    (List.filter (fun e => negb (bool_decide (fst e ∈ excludedBonusIndices)))
       (imap (fun idx item => (idx, item)) bonusItems)).

(** [totalBonus] *)
Definition totalBonus (bonusItems : list BonusItem) (excludedBonusIndices : list nat)
  : number :=
  fold_left (fun acc item => add acc (amount item))
    (activeBonusItems bonusItems excludedBonusIndices) (Num 0).

End Bonus.

Module Posm.

Record PosmChangeItem : Type := mkPosmChangeItem {
  productCode : string;
  productName : string;
  oldPrice : number;
  newPrice : number;
  promotion : option string;
  bonusPoint : option string;
}.

(** [handlePosmSelect], on the list of selected product codes. *)
Definition handlePosmSelect (code : string) (prev : list string) : list string :=
  if bool_decide (code ∈ prev)
  then List.filter (fun c => negb (String.eqb c code)) prev
  else (prev ++ [code])%list.

(** [handlePosmSelectAll], by the state of the check box. *)
Definition handlePosmSelectAll (isChecked : bool) (posmItems : list PosmChangeItem)
  : list string :=
  if isChecked then map productCode posmItems else [].

(** The items that [handlePrintPosm] prints: those whose code is
    selected. *)
Definition itemsToPrint (posmItems : list PosmChangeItem) (selectedPosmItems : list string)
  : list PosmChangeItem :=
  List.filter (fun item => bool_decide (productCode item ∈ selectedPosmItems)) posmItems.

End Posm.

(** ** Notions used to state the properties of the filtered view *)

(** The indices of a list of indexed records grow along the list. *)
Definition increasing (l : list (nat * Inventory.InventoryItem)) : Prop :=
  forall p q x y, p < q -> l !! p = Some x -> l !! q = Some y -> fst x < fst y.

(** Two indexed records that the filters cannot tell apart. *)
Definition sameForFilters (e e' : nat * Inventory.InventoryItem) : Prop :=
  fst e = fst e' /\ Inventory.hasImei (snd e) = Inventory.hasImei (snd e')
  /\ Inventory.status (snd e) = Inventory.status (snd e') /\ Inventory.category (snd e) = Inventory.category (snd e').

(** ** The exports *)

(** [String(n)] and [Math.abs(n)] on the numbers of this development. *)
Definition numberToString (n : number) : string :=
  match n with
  | NaN => "NaN"
  | Num z => pretty z
  end.

Definition absNumber (n : number) : number :=
  match n with
  | NaN => NaN
  | Num z => Num (Z.abs z)
  end.

Module Exported.

(** A row of the sheet written by [handleExportExcelCheckResult]; an
    empty cell (['']) of a numeric column is [None]. *)
Record CheckRow : Type := mkCheckRow {
  rowProductCode : string;
  rowProductName : string;
  rowImei : string;
  rowFileQuantity : number;
  rowActualQuantity : option number;
  rowDifference : option number;
  rowStatus : string;
}.

(** The callback of [excelCheckItems.map] in
    [handleExportExcelCheckResult]. *)
Definition checkRow (item : ExcelCheck.ExcelCheckItem) : CheckRow :=
  let difference :=
    match ExcelCheck.actualQuantity item with
    | None => None
    | Some actual => Some (sub actual (ExcelCheck.fileQuantity item))
    end in
  let status :=
    match difference with
    | None => "Chưa kiểm"
    | Some d =>
        if strictEq d (Num 0) then "Khớp"
        else if gtNumber d (Num 0) then "Thừa " +:+ numberToString d
        else "Thiếu " +:+ numberToString (absNumber d)
    end in
  {| rowProductCode := ExcelCheck.productCode item;
     rowProductName := ExcelCheck.productName item;
     rowImei := orString (ExcelCheck.imei item) "";
     rowFileQuantity := ExcelCheck.fileQuantity item;
     rowActualQuantity := ExcelCheck.actualQuantity item;
     rowDifference := difference;
     rowStatus := status |}.

(** The rows [handleExportExcelCheckResult] writes; nothing is written
    for an empty list. *)
Definition checkRows (items : list ExcelCheck.ExcelCheckItem) : option (list CheckRow) :=
  match items with
  | [] => None
  | _ => Some (map checkRow items)
  end.

(** [handleExportUncheckedItems]: the unchecked records, the value of
    each (quantity times price) and the grand total of the summary row;
    nothing is written when every record is checked. *)
Definition uncheckedItems (items : list Inventory.InventoryItem)
  : list Inventory.InventoryItem :=
  List.filter (fun item => negb (Inventory.checked item)) items.

Definition itemValue (item : Inventory.InventoryItem) : number :=
  mul (Inventory.quantity item) (Inventory.price item).

Definition uncheckedExport (items : list Inventory.InventoryItem)
  : option (list (Inventory.InventoryItem * number) * number) :=
  match uncheckedItems items with
  | [] => None
  | unchecked =>
      Some (map (fun item => (item, itemValue item)) unchecked,
            fold_left (fun totalValue item => add totalValue (itemValue item))
              unchecked (Num 0))
  end.

End Exported.

(** * Properties *)

(** ** Strings and numbers *)

Lemma eqb_empty_false (s : string) : s <> "" -> String.eqb s "" = false.
Proof. intros Hs. by apply String.eqb_neq. Qed.

Lemma orString_nonempty (s d : string) : s <> "" -> orString (Some s) d = s.
Proof. intros Hs. simpl. by rewrite eqb_empty_false. Qed.

Lemma truthy_false (v : option string) (d : string) :
  truthy v = false -> orString v d = d.
Proof.
  destruct v as [s|]; simpl; [|done].
  destruct (String.eqb s ""); [done|discriminate].
Qed.

Lemma orString_truthy (v : option string) (d : string) :
  orString v d = if truthy v then default "" v else d.
Proof.
  destruct v as [s|]; simpl; [|done]. by destruct (String.eqb s "").
Qed.

Lemma add_zero_l (a : number) : add (Num 0) a = a.
Proof. by destruct a. Qed.

Lemma add_zero_r (a : number) : add a (Num 0) = a.
Proof. destruct a; simpl; [done|]. f_equal; lia. Qed.

Lemma add_assoc (a b c : number) : add (add a b) c = add a (add b c).
Proof. destruct a, b, c; simpl; try done. f_equal; lia. Qed.

(** Reading digits never yields a negative value. *)
Lemma readDigits_nonneg (s : string) :
  forall (acc : option Z) (z : Z),
    (forall a, acc = Some a -> (0 <= a)%Z) ->
    readDigits acc s = Some z -> (0 <= z)%Z.
Proof.
  induction s as [|c s IH]; intros acc z Hacc; simpl.
  - intros ->. by apply Hacc.
  - destruct (isDigit c); [|intros ->; by apply Hacc].
    apply IH. intros a [= <-].
    destruct acc as [a0|]; simpl; [specialize (Hacc a0 eq_refl)|]; lia.
Qed.

(** [parseFormattedNumber] always returns an integer that is not
    negative, and 0 when the text has no digit. *)
Lemma parseFormattedNumber_integer (value : string) :
  exists z : Z, parseFormattedNumber value = Num z /\ (0 <= z)%Z.
Proof.
  unfold parseFormattedNumber, parseInt10.
  destruct (readDigits None (stripNonDigits value)) as [z|] eqn:Hread; simpl.
  - exists z. split; [done|].
    eapply readDigits_nonneg; [|exact Hread]. by intros a [=].
  - by exists 0%Z.
Qed.

Lemma parseFormattedNumber_no_digit (value : string) :
  stripNonDigits value = "" -> parseFormattedNumber value = Num 0.
Proof. unfold parseFormattedNumber. by intros ->. Qed.

Section BuiltinFacts.
Context `{Builtins}.

Lemma trim_nonempty (s : string) : trim s <> "" -> s <> "".
Proof. intros Ht ->. by rewrite trim_empty in Ht. Qed.

End BuiltinFacts.

(** ** The record loaders *)

Section LoaderFacts.
Context `{Builtins}.

Lemma loaded_inventory_lookup (json : list Row) (st : Inventory.State) (i : nat) :
  Inventory.inventoryItems (Inventory.handleFileImport json st) !! i
  = Inventory.loadRow <$> json !! i.
Proof. simpl. apply list_lookup_fmap. Qed.

Lemma loaded_excelCheck_lookup (json : list Row) (st : ExcelCheck.State) (i : nat) :
  ExcelCheck.excelCheckItems (ExcelCheck.handleFileImportForExcelCheck json st) !! i
  = ExcelCheck.loadRow <$> json !! i.
Proof. simpl. apply list_lookup_fmap. Qed.

(** The price of a loaded record is an integer that is not negative. *)
Lemma loaded_price_integer (row : Row) :
  exists z : Z, Inventory.price (Inventory.loadRow row) = Num z /\ (0 <= z)%Z.
Proof. apply parseFormattedNumber_integer. Qed.

(** C2, as amended.  Both loaders produce exactly one record per input
    row, in input order, and drop none: the record at index [i] is the
    one built from row [i].  A row whose display name is empty or absent
    is kept and named ["N/A"]; a row with a non-empty display name keeps
    that name. *)
Theorem C2_one_record_per_row (json : list Row) :
  (forall st : Inventory.State,
      let loaded := Inventory.inventoryItems (Inventory.handleFileImport json st) in
      length loaded = length json /\
      forall i, loaded !! i = Inventory.loadRow <$> json !! i) /\
  (forall st : ExcelCheck.State,
      let loaded :=
        ExcelCheck.excelCheckItems (ExcelCheck.handleFileImportForExcelCheck json st) in
      length loaded = length json /\
      forall i, loaded !! i = ExcelCheck.loadRow <$> json !! i) /\
  (forall row : Row,
      let name := if hasDisplayName row then default "" (displayName row) else "N/A" in
      Inventory.productName (Inventory.loadRow row) = name /\
      ExcelCheck.productName (ExcelCheck.loadRow row) = name).
Proof.
  split_and!.
  - intros st loaded. split; [apply length_map|]. apply loaded_inventory_lookup.
  - intros st loaded. split; [apply length_map|]. apply loaded_excelCheck_lookup.
  - intros row. unfold hasDisplayName, displayName.
    split; apply orString_truthy.
Qed.

End LoaderFacts.

(** C2, as stated, fails on a sheet whose second row has no display
    name: the row is not dropped, both loaders keep it as a record named
    ["N/A"], so the loaded list is not the list of the rows that have a
    display name. *)
Lemma C2_counterexample :
  map hasDisplayName sheetNameless = [true; false] /\
  map Inventory.productName
    (Inventory.inventoryItems (Inventory.handleFileImport sheetNameless emptyInventory))
  = ["Loa JBL"; "N/A"] /\
  map ExcelCheck.productName
    (ExcelCheck.excelCheckItems
       (ExcelCheck.handleFileImportForExcelCheck sheetNameless emptyExcelCheck))
  = ["Loa JBL"; "N/A"] /\
  Inventory.inventoryItems (Inventory.handleFileImport sheetNameless emptyInventory)
  <> map Inventory.loadRow (List.filter hasDisplayName sheetNameless) /\
  ExcelCheck.excelCheckItems
    (ExcelCheck.handleFileImportForExcelCheck sheetNameless emptyExcelCheck)
  <> map ExcelCheck.loadRow (List.filter hasDisplayName sheetNameless).
Proof.
  split_and!; try (vm_compute; reflexivity).
  - intros Heq. apply (f_equal length) in Heq. vm_compute in Heq. discriminate.
  - intros Heq. apply (f_equal length) in Heq. vm_compute in Heq. discriminate.
Qed.

(** C4: the code at the failing input.  A quantity cell that holds no
    number is loaded as NaN by both loaders, where the price cell with the
    same text is loaded as 0; the NaN then is the total of the summary. *)
Theorem C4_quantity_not_a_number :
  map Inventory.quantity
    (Inventory.inventoryItems (Inventory.handleFileImport sheetBadQuantity emptyInventory))
  = [NaN] /\
  map Inventory.price
    (Inventory.inventoryItems (Inventory.handleFileImport sheetBadQuantity emptyInventory))
  = [Num 0] /\
  map ExcelCheck.fileQuantity
    (ExcelCheck.excelCheckItems
       (ExcelCheck.handleFileImportForExcelCheck sheetBadQuantity emptyExcelCheck))
  = [NaN] /\
  ExcelCheck.totalFileQuantity
    (ExcelCheck.excelCheckStats
       (ExcelCheck.excelCheckItems
          (ExcelCheck.handleFileImportForExcelCheck sheetBadQuantity emptyExcelCheck)))
  = NaN.
Proof. split_and!; vm_compute; reflexivity. Qed.


(** ** Checklist mode: toggling and the guided sweep *)

Section InventoryFacts.
Import Inventory.

Lemma toggleChecked_involutive (item : InventoryItem) :
  toggleChecked (toggleChecked item) = item.
Proof. destruct item; unfold toggleChecked; simpl. by rewrite negb_involutive. Qed.

Lemma handleCheckItem_state (originalIndex : nat) (st : State) :
  fst (handleCheckItem originalIndex st)
  = setInventoryItems (toggleAt originalIndex (inventoryItems st)) st.
Proof.
  unfold handleCheckItem.
  destruct (list_find _ _) as [[p e]|]; [|done].
  by destruct (match firstUnchecked _ _ _ with Some _ => _ | None => _ end).
Qed.

Lemma toggleAt_lookup (originalIndex i : nat) (items : list InventoryItem) :
  toggleAt originalIndex items !! i
  = (fun item => if (i =? originalIndex)%nat then toggleChecked item else item)
      <$> items !! i.
Proof. unfold toggleAt. by rewrite list_lookup_imap. Qed.

Lemma toggleAt_involutive (originalIndex : nat) (items : list InventoryItem) :
  toggleAt originalIndex (toggleAt originalIndex items) = items.
Proof.
  apply list_eq; intros i. rewrite !toggleAt_lookup.
  destruct (items !! i) as [item|]; simpl; [|done].
  destruct (i =? originalIndex)%nat; [|done].
  by rewrite toggleChecked_involutive.
Qed.

(** C6.  Toggling the same record twice is the identity: after the
    second toggle the checked flag of every record, and with it the whole
    state of the page, is what it was before the first one. *)
Theorem C6_toggle_twice (originalIndex : nat) (st : State) :
  let st2 :=
    fst (handleCheckItem originalIndex (fst (handleCheckItem originalIndex st))) in
  map checked (inventoryItems st2) = map checked (inventoryItems st) /\ st2 = st.
Proof.
  assert (Hst : fst (handleCheckItem originalIndex
                       (fst (handleCheckItem originalIndex st))) = st).
  { rewrite !handleCheckItem_state. destruct st; unfold setInventoryItems; simpl.
    by rewrite toggleAt_involutive. }
  simpl. by rewrite Hst.
Qed.

(** The loop is a search in the slice it runs over. *)
Lemma firstUnchecked_find (n : nat) :
  forall (l : list (nat * InventoryItem)) (from : nat),
    firstUnchecked l from n
    = (fun found => from + fst found)
        <$> list_find (fun e => checked (snd e) = false) (take n (drop from l)).
Proof.
  induction n as [|n IH]; intros l from; simpl.
  - done.
  - destruct (l !! from) as [e|] eqn:Hfrom.
    + rewrite (drop_S _ _ _ Hfrom). simpl.
      destruct (checked (snd e)) eqn:Hc; simpl.
      * rewrite IH. destruct (list_find _ _) as [[k x]|]; simpl; [|done].
        f_equal; lia.
      * f_equal; lia.
    + apply lookup_ge_None in Hfrom. by rewrite drop_ge.
Qed.

(** A member of the filtered subset is a record of the list, paired
    with its index. *)
Lemma applyFilters_In fi fs fc (l : list (nat * InventoryItem)) e :
  In e (applyFilters fi fs fc l) -> In e l.
Proof.
  unfold applyFilters. intros He.
  apply filter_In in He as [He _]. apply filter_In in He as [He _].
  by apply filter_In in He as [He _].
Qed.

Lemma withOriginalIndex_lookup (items : list InventoryItem) i :
  withOriginalIndex items !! i = (fun item => (i, item)) <$> items !! i.
Proof. unfold withOriginalIndex. by rewrite list_lookup_imap. Qed.

Lemma filtered_member (st : State) (p : nat) e :
  filteredInventoryItems st !! p = Some e ->
  inventoryItems st !! fst e = Some (snd e).
Proof.
  intros Hp. apply list_elem_of_lookup_2, list_elem_of_In, applyFilters_In in Hp.
  apply list_elem_of_In, list_elem_of_lookup in Hp as [i Hi].
  rewrite withOriginalIndex_lookup in Hi.
  destruct (inventoryItems st !! i) as [item|] eqn:E; simplify_eq/=. done.
Qed.

Lemma NoDup_fst_filter (f : nat * InventoryItem -> bool) (l : list (nat * InventoryItem)) :
  NoDup (fst <$> l) -> NoDup (fst <$> List.filter f l).
Proof.
  induction l as [|x l IH]; simpl; [done|].
  rewrite NoDup_cons. intros [Hx Hl].
  destruct (f x); simpl; [|by apply IH].
  apply NoDup_cons. split; [|by apply IH].
  intros Hin. apply Hx.
  apply list_elem_of_fmap in Hin as [y [-> Hy]].
  apply list_elem_of_fmap. exists y. split; [done|].
  apply list_elem_of_In. apply list_elem_of_In in Hy.
  by apply filter_In in Hy as [Hy _].
Qed.

Lemma NoDup_fst_withOriginalIndex (items : list InventoryItem) :
  NoDup (fst <$> withOriginalIndex items).
Proof.
  assert (Heq : fst <$> withOriginalIndex items = seq 0 (length items)).
  { apply list_eq; intros i. rewrite list_lookup_fmap, withOriginalIndex_lookup.
    destruct (items !! i) as [item|] eqn:E; simpl.
    - symmetry. apply lookup_seq. split; [done|]. by apply lookup_lt_Some in E.
    - symmetry. apply lookup_ge_None. rewrite length_seq. by apply lookup_ge_None in E. }
  rewrite Heq. apply NoDup_seq.
Qed.

(** A record occurs at one position of the filtered subset at most. *)
Lemma filtered_position_unique (st : State) (p q i : nat) a b :
  filteredInventoryItems st !! p = Some (i, a) ->
  filteredInventoryItems st !! q = Some (i, b) ->
  p = q.
Proof.
  intros Hp Hq.
  assert (Hnd : NoDup (fst <$> filteredInventoryItems st)).
  { unfold filteredInventoryItems, applyFilters.
    do 3 apply NoDup_fst_filter. apply NoDup_fst_withOriginalIndex. }
  eapply (NoDup_lookup _ p q i Hnd); rewrite list_lookup_fmap.
  - by rewrite Hp.
  - by rewrite Hq.
Qed.

Lemma filtered_after_toggle (originalIndex : nat) (st : State) :
  filteredInventoryItems (fst (handleCheckItem originalIndex st))
  = applyFilters (imeiFilter st) (statusFilter st) (categoryFilter st)
      (withOriginalIndex (toggleAt originalIndex (inventoryItems st))).
Proof. by rewrite handleCheckItem_state. Qed.

(** The target of [handleCheckItem]: nothing when the toggled record is
    filtered out, else the target of the sweep from its position. *)
Lemma handleCheckItem_target (originalIndex : nat) (st : State) :
  snd (handleCheckItem originalIndex st)
  = match list_find (fun e => fst e = originalIndex)
            (filteredInventoryItems (fst (handleCheckItem originalIndex st))) with
    | Some (p, _) =>
        nextUnverifiedTarget
          (filteredInventoryItems (fst (handleCheckItem originalIndex st))) p
    | None => None
    end.
Proof.
  rewrite filtered_after_toggle. unfold handleCheckItem.
  set (F := applyFilters _ _ _ _).
  destruct (list_find (fun e => fst e = originalIndex) F) as [[p e0]|]; [|done].
  unfold nextUnverifiedTarget.
  rewrite !firstUnchecked_find, drop_0.
  rewrite (take_ge (drop (S p) F)) by (rewrite length_drop; lia).
  destruct (list_find _ (drop (S p) F)) as [[k e]|] eqn:Hfwd; simpl.
  - rewrite (list_find_app_l _ _ _ _ _ Hfwd). simpl.
    apply list_find_Some in Hfwd as (Hk & _ & _).
    rewrite lookup_drop in Hk. simpl in Hk. by rewrite Hk.
  - rewrite (list_find_app_r _ _ _ Hfwd).
    destruct (list_find _ (take p F)) as [[k e]|] eqn:Hwrap; simpl; [|done].
    apply list_find_Some in Hwrap as (Hk & _ & _).
    apply lookup_take_Some in Hk as [Hk _]. by rewrite Hk.
Qed.

Lemma nextUnverifiedTarget_Some (F : list (nat * InventoryItem)) (p t : nat) :
  nextUnverifiedTarget F p = Some t ->
  exists q it, F !! q = Some (t, it) /\ checked it = false /\ q <> p.
Proof.
  unfold nextUnverifiedTarget. intros Hn.
  destruct (list_find _ _) as [[k [t' it]]|] eqn:Hfind; simplify_eq/=.
  apply list_find_Some in Hfind as (Hk & Hc & _). simpl in Hc.
  apply lookup_app_Some in Hk as [Hk|[_ Hk]].
  - rewrite lookup_drop in Hk. exists (S p + k), it. split_and!; [done..|lia].
  - apply lookup_take_Some in Hk as [Hk Hlt].
    eexists _, it. split_and!; [done..|lia].
Qed.

Lemma nextUnverifiedTarget_None (F : list (nat * InventoryItem)) (p : nat) :
  nextUnverifiedTarget F p = None <->
  forall q e, F !! q = Some e -> q <> p -> checked (snd e) = true.
Proof.
  unfold nextUnverifiedTarget. rewrite fmap_None, list_find_None, Forall_app.
  rewrite !Forall_lookup. split.
  - intros [Hfwd Hwrap] q e Hq Hne.
    destruct (decide (q < p)) as [Hlt|Hge].
    + specialize (Hwrap q e). rewrite lookup_take_Some in Hwrap.
      apply not_false_is_true. apply Hwrap. done.
    + specialize (Hfwd (q - S p) e). rewrite lookup_drop in Hfwd.
      replace (S p + (q - S p)) with q in Hfwd by lia.
      apply not_false_is_true. by apply Hfwd.
  - intros Hall. split; intros k e Hk.
    + rewrite lookup_drop in Hk. rewrite (Hall _ _ Hk); [done|lia].
    + apply lookup_take_Some in Hk as [Hk Hlt]. rewrite (Hall _ _ Hk); [done|lia].
Qed.

(** C7.  After a record is toggled to verified, the target that
    [handleCheckItem] scrolls to is the one found by searching the
    filtered subset forward from the position of the toggled record,
    wrapping to the start, for the first record that is not verified.
    The target is a member of the filtered subset, and is not verified.
    There is no target exactly when the filter excludes the toggled
    record or every record of the filtered subset is verified. *)
Theorem C7_next_unverified (originalIndex : nat) (st : State) (item : InventoryItem) :
  inventoryItems st !! originalIndex = Some item ->
  checked item = false ->
  let st' := fst (handleCheckItem originalIndex st) in
  let target := snd (handleCheckItem originalIndex st) in
  let filtered := filteredInventoryItems st' in
  (forall p it, filtered !! p = Some (originalIndex, it) ->
                target = nextUnverifiedTarget filtered p) /\
  (forall t, target = Some t ->
             exists q it, filtered !! q = Some (t, it) /\ checked it = false) /\
  (target = None <->
     (forall p it, filtered !! p <> Some (originalIndex, it)) \/
     (forall q e, filtered !! q = Some e -> checked (snd e) = true)).
Proof.
  intros Hitem Hunchecked st' target filtered.
  assert (Htarget : target
    = match list_find (fun e => fst e = originalIndex) filtered with
      | Some (p, _) => nextUnverifiedTarget filtered p
      | None => None
      end) by apply handleCheckItem_target.
  assert (Htoggled : forall p it,
    filtered !! p = Some (originalIndex, it) -> checked it = true).
  { intros p it Hp. apply filtered_member in Hp. simpl in Hp.
    unfold st' in Hp. rewrite handleCheckItem_state in Hp. simpl in Hp.
    rewrite toggleAt_lookup, Hitem, Nat.eqb_refl in Hp. simplify_eq/=.
    by rewrite Hunchecked. }
  assert (Hpos : forall p it,
    filtered !! p = Some (originalIndex, it) ->
    exists e, list_find (fun e => fst e = originalIndex) filtered = Some (p, e)).
  { intros p it Hp.
    destruct (list_find (fun e => fst e = originalIndex) filtered)
      as [[p' [i' it']]|] eqn:Hfind.
    - apply list_find_Some in Hfind as Hfind'. destruct Hfind' as (Hp' & Hi & _).
      simpl in Hi; subst i'.
      rewrite (filtered_position_unique _ _ _ _ _ _ Hp Hp'). eauto.
    - rewrite list_find_None, Forall_lookup in Hfind.
      by destruct (Hfind _ _ Hp). }
  split_and!.
  - intros p it Hp. destruct (Hpos _ _ Hp) as [e He]. by rewrite Htarget, He.
  - intros t Ht. rewrite Htarget in Ht.
    destruct (list_find _ filtered) as [[p e]|]; [|done].
    apply nextUnverifiedTarget_Some in Ht as (q & it & Hq & Hc & _). eauto.
  - rewrite Htarget. split.
    + destruct (list_find _ filtered) as [[p [i it]]|] eqn:Hfind.
      * intros Hnone. right. intros q e Hq.
        apply list_find_Some in Hfind as (Hp & Hi & _). simpl in Hi; subst i.
        destruct (decide (q = p)) as [->|Hne].
        -- rewrite Hp in Hq. simplify_eq/=. by eapply Htoggled.
        -- by eapply nextUnverifiedTarget_None.
      * intros _. left. intros p it Hp.
        rewrite list_find_None, Forall_lookup in Hfind.
        by destruct (Hfind _ _ Hp).
    + intros [Hout|Hall].
      * destruct (list_find _ filtered) as [[p [i it]]|] eqn:Hfind; [|done].
        apply list_find_Some in Hfind as (Hp & Hi & _). simpl in Hi; subst i.
        by destruct (Hout _ _ Hp).
      * destruct (list_find _ filtered) as [[p e]|]; [|done].
        apply nextUnverifiedTarget_None. eauto.
Qed.
End InventoryFacts.

(** ** Free-text search *)

Section SearchFacts.
Context `{Builtins}.
Import Inventory.

(** A submitted query that is not blank is resolved and recorded. *)
Lemma handleSearchSubmit_resolved (st : State) :
  trim (searchQuery st) <> "" ->
  handleSearchSubmit st
  = {| inventoryItems := inventoryItems st;
       imeiFilter := imeiFilter st;
       statusFilter := statusFilter st;
       categoryFilter := categoryFilter st;
       searchQuery := "";
       searchHistory :=
         (trim (searchQuery st),
          resolveSearch (inventoryItems st) (toLowerCase (trim (searchQuery st))))
         :: searchHistory st;
       isSuggestionsVisible := false |}.
Proof. intros Hq. unfold handleSearchSubmit. by rewrite (eqb_empty_false _ Hq). Qed.

Lemma findByKey_first (items : list InventoryItem) (query : string) m rm :
  items !! m = Some rm ->
  keyMatches query rm = true ->
  Forall (fun rk => keyMatches query rk = false) (take m items) ->
  findByKey items query = Some (m, rm).
Proof.
  intros Hm Hrm Hfirst. apply list_find_Some. split_and!; [done|by rewrite Hrm|].
  intros k rk Hk Hlt Hmatch. rewrite Forall_lookup in Hfirst.
  rewrite (Hfirst k rk) in Hmatch; [done|]. apply lookup_take_Some. by split.
Qed.

(** The search resolves a key to the first record, in load order, one
    of whose two keys matches. *)
Lemma resolveSearch_first_key (items : list InventoryItem) (query : string) m rm :
  items !! m = Some rm ->
  keyMatches query rm = true ->
  Forall (fun rk => keyMatches query rk = false) (take m items) ->
  resolveSearch items query = Some rm.
Proof.
  intros Hm Hrm Hfirst. unfold resolveSearch.
  by rewrite (findByKey_first _ _ _ _ Hm Hrm Hfirst).
Qed.

Lemma resolveSearch_none (items : list InventoryItem) (query : string) :
  Forall (fun item => keyMatches query item = false
                      /\ nameMatches query item = false) items ->
  resolveSearch items query = None.
Proof.
  intros Hnone. unfold resolveSearch, findByKey.
  assert (Hkey : list_find (fun item => keyMatches query item) items = None).
  { apply list_find_None. eapply Forall_impl; [exact Hnone|].
    intros item [Hk _]. rewrite Hk. intros []. }
  rewrite Hkey. clear Hkey.
  induction Hnone as [|item items [_ Hname] _ IH]; simpl; [done|].
  by rewrite Hname.
Qed.

(** A key that differs from the query does not match it. *)
Lemma keyMatches_false (query : string) (item : InventoryItem) :
  toLowerCase (trim (qrCode item)) <> query ->
  toLowerCase (trim (productCodeForSearch item)) <> query ->
  keyMatches query item = false.
Proof.
  intros Hqr Hcode. unfold keyMatches.
  apply String.eqb_neq in Hqr, Hcode. rewrite Hqr, Hcode.
  by rewrite !andb_false_r.
Qed.

(** C9.  A submitted query that is not blank and that matches no record,
    neither by its alternate key nor by its primary key (both trimmed and
    lower-cased) nor as a substring of its lower-cased display name,
    gives no error: the handler returns the state in which the history
    has gained, in front, the trimmed text of the query paired with no
    result; the records are unchanged. *)
Theorem C9_not_found_recorded (st : State) :
  let query := toLowerCase (trim (searchQuery st)) in
  trim (searchQuery st) <> "" ->
  Forall (fun item =>
            toLowerCase (trim (qrCode item)) <> query /\
            toLowerCase (trim (productCodeForSearch item)) <> query /\
            includes (toLowerCase (productName item)) query = false)
         (inventoryItems st) ->
  handleSearchSubmit st
  = {| inventoryItems := inventoryItems st;
       imeiFilter := imeiFilter st;
       statusFilter := statusFilter st;
       categoryFilter := categoryFilter st;
       searchQuery := "";
       searchHistory := (trim (searchQuery st), None) :: searchHistory st;
       isSuggestionsVisible := false |}.
Proof.
  intros query Hq Hnone. rewrite (handleSearchSubmit_resolved _ Hq).
  rewrite resolveSearch_none; [done|].
  eapply Forall_impl; [exact Hnone|]. intros item (Hqr & Hcode & Hname).
  split; [by apply keyMatches_false|done].
Qed.

End SearchFacts.

(** ** Count mode: scans *)

Section ExcelCheckFacts.
Context `{Builtins}.
Import ExcelCheck.



(** A non-blank product code is cleaned the way the query is sanitized. *)
Lemma cleanString_code (code : string) :
  trim code <> "" ->
  cleanString (Some code) = toLowerCase (stripQuote (trim code)).
Proof.
  intros Ht. unfold cleanString. simpl.
  by rewrite (eqb_empty_false code (trim_nonempty _ Ht)).
Qed.

Lemma findScanned_by_code (items : list ExcelCheckItem) (sq : string) i r :
  items !! i = Some r ->
  cleanString (Some (productCode r)) = sq ->
  (forall k rk, k < i -> items !! k = Some rk ->
                cleanString (Some (productCode rk)) <> sq) ->
  findScanned items sq = Some (i, r).
Proof.
  intros Hi Hr Hfirst. unfold findScanned, findByProductCode.
  assert (Hfind : list_find
            (fun item => cleanString (Some (productCode item)) = sq) items
          = Some (i, r)).
  { apply list_find_Some. split_and!; [done..|]. intros k rk Hk Hlt. eauto. }
  by rewrite Hfind.
Qed.

Lemma handleScanSubmit_hit (st : State) i r :
  trim (scanQuery st) <> "" ->
  findScanned (excelCheckItems st) (toLowerCase (stripQuote (trim (scanQuery st))))
  = Some (i, r) ->
  handleScanSubmit st
  = {| excelCheckItems :=
         <[i := setActualQuantity (increment (actualQuantity r)) r]>
           (excelCheckItems st);
       scanQuery := "";
       scanStatus := {| type := success;
                        message := "Đã cập nhật: " +:+ productName r |};
       lastScannedIndex := Some i |}.
Proof.
  intros Hq Hfound. unfold handleScanSubmit.
  by rewrite (eqb_empty_false _ Hq), Hfound.
Qed.

Lemma handleScanSubmit_miss (st : State) :
  trim (scanQuery st) <> "" ->
  findScanned (excelCheckItems st) (toLowerCase (stripQuote (trim (scanQuery st))))
  = None ->
  handleScanSubmit st
  = {| excelCheckItems := excelCheckItems st;
       scanQuery := "";
       scanStatus := {| type := error;
                        message := "Không tìm thấy sản phẩm với mã: "
                                   +:+ trim (scanQuery st) |};
       lastScannedIndex := lastScannedIndex st |}.
Proof.
  intros Hq Hfound. unfold handleScanSubmit.
  by rewrite (eqb_empty_false _ Hq), Hfound.
Qed.

Lemma handleScanSubmit_blank (st : State) :
  trim (scanQuery st) = "" -> handleScanSubmit st = st.
Proof. intros Hq. unfold handleScanSubmit. by rewrite Hq. Qed.

Lemma setActualQuantity_twice a b (r : ExcelCheckItem) :
  setActualQuantity a (setActualQuantity b r) = setActualQuantity a r.
Proof. done. Qed.

Lemma setActualQuantity_same (r : ExcelCheckItem) :
  setActualQuantity (actualQuantity r) r = r.
Proof. by destruct r. Qed.

(** The count of a record not yet counted, after [n + 1] scans. *)
Lemma increment_iter (n : nat) :
  Nat.iter (S n) increment None = Some (Num (Z.of_nat (S n))).
Proof.
  induction n as [|n IH]; [done|].
  change (Nat.iter (S (S n)) increment None)
    with (increment (Nat.iter (S n) increment None)).
  rewrite IH. unfold increment, orZero, truthyNumber.
  destruct (Z.of_nat (S n) =? 0)%Z eqn:E; simpl.
  - apply Z.eqb_eq in E. lia.
  - do 2 f_equal. lia.
Qed.

(** Scanning the code of the first record that carries it, any number
    of times: that record counts the scans, the list is otherwise the
    same. *)
Lemma scanTimes_own_code (n : nat) (st : State) i r :
  excelCheckItems st !! i = Some r ->
  trim (productCode r) <> "" ->
  Forall (fun rk => cleanString (Some (productCode rk))
                    <> cleanString (Some (productCode r)))
         (take i (excelCheckItems st)) ->
  excelCheckItems (scanTimes n (productCode r) st)
  = <[i := setActualQuantity (Nat.iter n increment (actualQuantity r)) r]>
      (excelCheckItems st).
Proof.
  intros Hi Hcode Hfirst. induction n as [|n IH].
  - simpl. rewrite setActualQuantity_same. symmetry. by apply list_insert_id.
  - change (scanTimes (S n) (productCode r) st)
      with (scan (productCode r) (scanTimes n (productCode r) st)).
    set (stn := scanTimes n (productCode r) st) in *.
    set (rn := setActualQuantity (Nat.iter n increment (actualQuantity r)) r) in *.
    assert (Hin : excelCheckItems stn !! i = Some rn).
    { rewrite IH. apply list_lookup_insert_eq. by apply lookup_lt_Some in Hi. }
    unfold scan. rewrite (handleScanSubmit_hit _ i rn); simpl.
    + rewrite IH, list_insert_insert_eq. done.
    + done.
    + apply findScanned_by_code; [done| |].
      * by rewrite <- cleanString_code.
      * intros k rk Hlt Hk. rewrite IH in Hk.
        rewrite list_lookup_insert_ne in Hk by lia.
        rewrite <- cleanString_code by done.
        rewrite Forall_lookup in Hfirst. apply (Hfirst k).
        apply lookup_take_Some. by split.
Qed.


Lemma findScanned_none (items : list ExcelCheckItem) (sq : string) :
  Forall (fun item => cleanString (Some (productCode item)) <> sq
                      /\ cleanString (imei item) <> sq) items ->
  findScanned items sq = None.
Proof.
  intros Hnone. unfold findScanned, findByProductCode, findByImei.
  assert (Hcode : list_find
            (fun item => cleanString (Some (productCode item)) = sq) items = None).
  { apply list_find_None. eapply Forall_impl; [exact Hnone|]. by intros item [? _]. }
  rewrite Hcode. apply list_find_None.
  eapply Forall_impl; [exact Hnone|]. by intros item [_ ?].
Qed.

(** A scan that finds no record leaves the records as they are, reports
    the trimmed query in an error status and clears the scan box. *)
Lemma handleScanSubmit_unmatched (st : State) :
  let sanitizedQuery := toLowerCase (stripQuote (trim (scanQuery st))) in
  trim (scanQuery st) <> "" ->
  Forall (fun item => cleanString (Some (productCode item)) <> sanitizedQuery
                      /\ cleanString (imei item) <> sanitizedQuery)
         (excelCheckItems st) ->
  handleScanSubmit st
  = {| excelCheckItems := excelCheckItems st;
       scanQuery := "";
       scanStatus := {| type := error;
                        message := "Không tìm thấy sản phẩm với mã: "
                                   +:+ trim (scanQuery st) |};
       lastScannedIndex := lastScannedIndex st |}.
Proof.
  intros sq Hq Hnone. apply handleScanSubmit_miss; [done|].
  by apply findScanned_none.
Qed.

(** C5, as amended.  Let [r] be a record that has not been counted yet,
    whose product code is not blank, and that is the first record in load
    order with its cleaned product code.  Scanning the product code of [r]
    N times in a row, N >= 1, leaves [r] with actual quantity N, and
    every other record as it was. *)
Theorem C5_first_record_counts_scans (st : State) (i : nat) (r : ExcelCheckItem) (N : nat) :
  1 <= N ->
  excelCheckItems st !! i = Some r ->
  actualQuantity r = None ->
  trim (productCode r) <> "" ->
  Forall (fun rk => cleanString (Some (productCode rk))
                    <> cleanString (Some (productCode r)))
         (take i (excelCheckItems st)) ->
  let items' := excelCheckItems (scanTimes N (productCode r) st) in
  items' !! i = Some (setActualQuantity (Some (Num (Z.of_nat N))) r) /\
  forall j, j <> i -> items' !! j = excelCheckItems st !! j.
Proof.
  intros HN Hi Hnull Hcode Hfirst items'. unfold items'.
  rewrite (scanTimes_own_code N st i r Hi Hcode Hfirst), Hnull.
  destruct N as [|n]; [lia|]. rewrite increment_iter. split.
  - apply list_lookup_insert_eq. by apply lookup_lt_Some in Hi.
  - intros j Hj. by apply list_lookup_insert_ne.
Qed.

End ExcelCheckFacts.

(** C5, as stated, fails on a sheet whose two rows have the product code
    A1: three scans of A1 are all counted on the first row, and the second
    row, whose primary key was scanned three times, is still not counted. *)
Lemma C5_counterexample :
  let st := ExcelCheck.handleFileImportForExcelCheck sheetA1A1 emptyExcelCheck in
  map ExcelCheck.productCode (ExcelCheck.excelCheckItems st) = ["A1"; "A1"] /\
  map ExcelCheck.actualQuantity
    (ExcelCheck.excelCheckItems (ExcelCheck.scanTimes 3 "A1" st))
  = [Some (Num 3); None].
Proof. split; vm_compute; reflexivity. Qed.

(** C10: the code at the failing input.  The sheet has the product codes
    A1 and B2 and no IMEI.  The scanned text is a single quote: it is not
    blank, and once sanitized it is the empty string, which is the cleaned
    product code of no record.  The scan is nevertheless counted on the
    first record, because the absent IMEI of that record is cleaned to the
    empty string too, and the status reports a success. *)
Theorem C10_quote_scan_counts_a_record :
  let st := ExcelCheck.handleFileImportForExcelCheck sheetA1B2 emptyExcelCheck in
  let st' := ExcelCheck.scan "'" st in
  trim "'" <> "" /\
  toLowerCase (stripQuote (trim "'")) = "" /\
  map ExcelCheck.productCode (ExcelCheck.excelCheckItems st) = ["A1"; "B2"] /\
  map (fun item => ExcelCheck.cleanString (Some (ExcelCheck.productCode item)))
    (ExcelCheck.excelCheckItems st) = ["a1"; "b2"] /\
  map ExcelCheck.imei (ExcelCheck.excelCheckItems st) = [None; None] /\
  map ExcelCheck.actualQuantity (ExcelCheck.excelCheckItems st) = [None; None] /\
  map ExcelCheck.actualQuantity (ExcelCheck.excelCheckItems st') = [Some (Num 1); None] /\
  ExcelCheck.type (ExcelCheck.scanStatus st') = ExcelCheck.success.
Proof. split_and!; vm_compute; first [reflexivity | discriminate]. Qed.

(** ** The discrepancy summary *)

Section StatsFacts.
Import ExcelCheck.

Lemma countIf_cons {A : Type} (p : A -> bool) (x : A) (l : list A) :
  countIf p (x :: l) = ((if p x then 1 else 0) + countIf p l)%Z.
Proof. unfold countIf. simpl. destruct (p x); simpl; lia. Qed.

(** The fold of [excelCheckStats] from any accumulator. *)
Lemma fold_statsStep (items : list ExcelCheckItem) :
  forall acc : Stats,
    fold_left statsStep items acc
    = {| totalFileQuantity :=
           add (totalFileQuantity acc) (sumNumbers (map fileQuantity items));
         totalActualQuantity :=
           add (totalActualQuantity acc) (sumNumbers (countedQuantities items));
         matchedCount := matchedCount acc + countIf isMatched items;
         mismatchedCount := mismatchedCount acc + countIf isMismatched items |}.
Proof.
  induction items as [|item items IH]; intros acc.
  - destruct acc as [f a m mm]. simpl. unfold countIf. simpl.
    f_equal; first [by rewrite add_zero_r | lia].
  - simpl fold_left. rewrite IH. rewrite !countIf_cons.
    unfold statsStep, countedQuantities, isMatched, isMismatched, difference.
    simpl. destruct (actualQuantity item) as [actual|]; simpl.
    + destruct (sub actual (fileQuantity item)) as [|d] eqn:Hd; simpl.
      * f_equal; first [apply add_assoc | lia].
      * destruct (d =? 0)%Z; simpl; f_equal; first [apply add_assoc | lia].
    + f_equal; first [apply add_assoc | lia].
Qed.

(** On integer quantities a counted record is mismatched exactly when
    it is a surplus or a deficit, and never both. *)
Lemma mismatched_surplus_or_deficit (items : list ExcelCheckItem) :
  Forall integerQuantities items ->
  countIf isMismatched items
  = (countIf isSurplus items + countIf isDeficit items)%Z.
Proof.
  induction 1 as [|item items [Hfile Hactual] _ IH]; [done|].
  rewrite !countIf_cons, IH.
  unfold isMismatched, isSurplus, isDeficit, difference.
  destruct (actualQuantity item) as [actual|]; simpl; [|lia].
  specialize (Hactual actual eq_refl).
  destruct actual as [|a]; [discriminate|].
  destruct (fileQuantity item) as [|f]; [discriminate|]. simpl.
  destruct (Z.eqb_spec (a - f) 0), (Z.ltb_spec 0 (a - f)), (Z.ltb_spec (a - f) 0);
    simpl; lia.
Qed.

End StatsFacts.

(** C3, as amended.  After loading the sheet with the records A1 of
    quantity 5 and B2 of quantity 3 and scanning A1 three times and B2
    three times, the summary is: total expected 8, total actual 6, one
    matched record, one mismatched record.  In general the summary holds
    the sum of the expected quantity of all records, the sum of the
    actual quantity of the counted records, the number of matched
    records, and the number of mismatched ones, surplus and deficit
    together: on integer quantities that number is the number of surplus
    records plus the number of deficit records. *)
Theorem C3_summary :
  ExcelCheck.excelCheckStats
    (ExcelCheck.excelCheckItems
       (ExcelCheck.scanTimes 3 "B2"
          (ExcelCheck.scanTimes 3 "A1"
             (ExcelCheck.handleFileImportForExcelCheck sheetA1B2 emptyExcelCheck))))
  = {| ExcelCheck.totalFileQuantity := Num 8;
       ExcelCheck.totalActualQuantity := Num 6;
       ExcelCheck.matchedCount := 1;
       ExcelCheck.mismatchedCount := 1 |} /\
  (forall items : list ExcelCheck.ExcelCheckItem,
      ExcelCheck.excelCheckStats items
      = {| ExcelCheck.totalFileQuantity :=
             sumNumbers (map ExcelCheck.fileQuantity items);
           ExcelCheck.totalActualQuantity := sumNumbers (countedQuantities items);
           ExcelCheck.matchedCount := countIf isMatched items;
           ExcelCheck.mismatchedCount := countIf isMismatched items |}) /\
  (forall items : list ExcelCheck.ExcelCheckItem,
      Forall integerQuantities items ->
      ExcelCheck.mismatchedCount (ExcelCheck.excelCheckStats items)
      = (countIf isSurplus items + countIf isDeficit items)%Z).
Proof.
  split_and!.
  - vm_compute. reflexivity.
  - intros items. unfold ExcelCheck.excelCheckStats.
    rewrite fold_statsStep.
    cbn [ExcelCheck.totalFileQuantity ExcelCheck.totalActualQuantity
         ExcelCheck.matchedCount ExcelCheck.mismatchedCount].
    by rewrite !add_zero_l, !Z.add_0_l.
  - intros items Hint. unfold ExcelCheck.excelCheckStats.
    rewrite fold_statsStep. cbn [ExcelCheck.mismatchedCount].
    rewrite Z.add_0_l. by apply mismatched_surplus_or_deficit.
Qed.

(** C3, as stated, fails: the summary has no count of surplus records
    and no count of deficit records, and neither can be read off it.
    Two lists of counted records, one with two surplus records and one
    deficit, the other with one surplus and two deficits, have the same
    summary. *)
Lemma C3_counterexample :
  ExcelCheck.excelCheckStats twoSurplusOneDeficit
  = ExcelCheck.excelCheckStats oneSurplusTwoDeficit /\
  countIf isSurplus twoSurplusOneDeficit = 2%Z /\
  countIf isDeficit twoSurplusOneDeficit = 1%Z /\
  countIf isSurplus oneSurplusTwoDeficit = 1%Z /\
  countIf isDeficit oneSurplusTwoDeficit = 2%Z /\
  ~ (exists deficit : ExcelCheck.Stats -> Z,
        forall items, deficit (ExcelCheck.excelCheckStats items) = countIf isDeficit items).
Proof.
  split_and!; try (vm_compute; reflexivity).
  intros [deficit Hdeficit].
  pose proof (Hdeficit twoSurplusOneDeficit) as H1.
  pose proof (Hdeficit oneSurplusTwoDeficit) as H2.
  vm_compute in H1, H2. rewrite H1 in H2. discriminate.
Qed.

(** ** Which record a key resolves to *)

Section KeyResolution.
Context `{Builtins}.

(** A scan whose sanitized text is the cleaned product code of some
    record is counted on the first such record. *)
Lemma handleScanSubmit_by_code (st : ExcelCheck.State) (i : nat)
    (ri : ExcelCheck.ExcelCheckItem) :
  let sanitizedQuery :=
    toLowerCase (stripQuote (trim (ExcelCheck.scanQuery st))) in
  trim (ExcelCheck.scanQuery st) <> "" ->
  ExcelCheck.excelCheckItems st !! i = Some ri ->
  ExcelCheck.cleanString (Some (ExcelCheck.productCode ri)) = sanitizedQuery ->
  Forall (fun rk => ExcelCheck.cleanString (Some (ExcelCheck.productCode rk))
                    <> sanitizedQuery)
         (take i (ExcelCheck.excelCheckItems st)) ->
  ExcelCheck.handleScanSubmit st
  = {| ExcelCheck.excelCheckItems :=
         <[i := ExcelCheck.setActualQuantity
                  (ExcelCheck.increment (ExcelCheck.actualQuantity ri)) ri]>
           (ExcelCheck.excelCheckItems st);
       ExcelCheck.scanQuery := "";
       ExcelCheck.scanStatus :=
         {| ExcelCheck.type := ExcelCheck.success;
            ExcelCheck.message := "Đã cập nhật: " +:+ ExcelCheck.productName ri |};
       ExcelCheck.lastScannedIndex := Some i |}.
Proof.
  intros sq Hq Hi Hcode Hfirst. apply handleScanSubmit_hit; [done|].
  apply findScanned_by_code; [done..|].
  intros k rk Hlt Hk. rewrite Forall_lookup in Hfirst. apply (Hfirst k).
  apply lookup_take_Some. by split.
Qed.

(** C1, as amended.  In a count-mode scan the primary key has
    precedence: when the scanned text matches the product code of some
    record, the scan is counted on the first record in load order whose
    product code matches, also when the text matches the IMEI of another
    record, placed before or after it.  In the free-text search neither
    key has precedence: the query resolves to the first record in load
    order one of whose two keys matches. *)
Theorem C1_key_precedence :
  (forall (st : ExcelCheck.State) (i j : nat) (ri rj : ExcelCheck.ExcelCheckItem),
      let sanitizedQuery :=
        toLowerCase (stripQuote (trim (ExcelCheck.scanQuery st))) in
      trim (ExcelCheck.scanQuery st) <> "" ->
      ExcelCheck.excelCheckItems st !! i = Some ri ->
      ExcelCheck.cleanString (Some (ExcelCheck.productCode ri)) = sanitizedQuery ->
      Forall (fun rk => ExcelCheck.cleanString (Some (ExcelCheck.productCode rk))
                        <> sanitizedQuery)
             (take i (ExcelCheck.excelCheckItems st)) ->
      ExcelCheck.excelCheckItems st !! j = Some rj ->
      ExcelCheck.cleanString (ExcelCheck.imei rj) = sanitizedQuery ->
      let st' := ExcelCheck.handleScanSubmit st in
      ExcelCheck.lastScannedIndex st' = Some i /\
      ExcelCheck.excelCheckItems st'
      = <[i := ExcelCheck.setActualQuantity
                 (ExcelCheck.increment (ExcelCheck.actualQuantity ri)) ri]>
          (ExcelCheck.excelCheckItems st)) /\
  (forall (st : Inventory.State) (m : nat) (rm : Inventory.InventoryItem),
      let query := toLowerCase (trim (Inventory.searchQuery st)) in
      trim (Inventory.searchQuery st) <> "" ->
      Inventory.inventoryItems st !! m = Some rm ->
      Inventory.keyMatches query rm = true ->
      Forall (fun rk => Inventory.keyMatches query rk = false)
             (take m (Inventory.inventoryItems st)) ->
      Inventory.searchHistory (Inventory.handleSearchSubmit st)
      = (trim (Inventory.searchQuery st), Some rm) :: Inventory.searchHistory st).
Proof.
  split.
  - intros st i j ri rj sq Hq Hi Hcode Hfirst _ _ st'. unfold st'.
    by rewrite (handleScanSubmit_by_code st i ri Hq Hi Hcode Hfirst).
  - intros st m rm query Hq Hm Hmatch Hfirst.
    rewrite (handleSearchSubmit_resolved _ Hq). cbn [Inventory.searchHistory].
    fold query. by rewrite (resolveSearch_first_key _ _ _ _ Hm Hmatch Hfirst).
Qed.


End KeyResolution.

(** C1, as stated, fails.  The text X1 is the IMEI of one row and the
    product code of the other.  In the search, on the sheet where the
    row with the product code comes first, the history records that row,
    not the row with the IMEI.  In the scan, on the sheet where the row
    with the IMEI comes first, the scan is counted on the second row, the
    one with the product code. *)
Lemma C1_counterexample :
  let inventory :=
    Inventory.inventoryItems (Inventory.handleFileImport sheetCodeThenImei emptyInventory) in
  let excelCheck :=
    ExcelCheck.handleFileImportForExcelCheck sheetImeiThenCode emptyExcelCheck in
  map Inventory.productCodeForSearch inventory = ["X1"; "Y2"] /\
  map Inventory.qrCode inventory = ["X1"; "X1"] /\
  map Inventory.hasImei inventory = [false; true] /\
  Inventory.searchHistory (Inventory.handleSearchSubmit (inventoryOf inventory "X1"))
  = [("X1", inventory !! 0)] /\
  map ExcelCheck.imei (ExcelCheck.excelCheckItems excelCheck) = [Some "X1"; None] /\
  map ExcelCheck.productCode (ExcelCheck.excelCheckItems excelCheck) = ["Y2"; "X1"] /\
  ExcelCheck.lastScannedIndex (ExcelCheck.scan "X1" excelCheck) = Some 1 /\
  map ExcelCheck.actualQuantity
    (ExcelCheck.excelCheckItems (ExcelCheck.scan "X1" excelCheck))
  = [None; Some (Num 1)].
Proof. split_and!; vm_compute; reflexivity. Qed.


(** ** The theorems at concrete inputs *)

(** C1 at the two sheets of its counterexample: the scan of X1 is
    counted on the row with the product code X1, at index 1, although
    the row at index 0 has the IMEI X1; the search for X1 records the
    row at index 0 of the other sheet. *)
Lemma C1_key_precedence_witness :
  let scanned :=
    ExcelCheck.setScanQuery "X1"
      (ExcelCheck.handleFileImportForExcelCheck sheetImeiThenCode emptyExcelCheck) in
  let searched :=
    inventoryOf
      (Inventory.inventoryItems
         (Inventory.handleFileImport sheetCodeThenImei emptyInventory)) "X1" in
  ExcelCheck.lastScannedIndex (ExcelCheck.handleScanSubmit scanned) = Some 1 /\
  Inventory.searchHistory (Inventory.handleSearchSubmit searched)
  = [("X1", Some (Inventory.loadRow rowCodeX1))].
Proof.
  intros scanned searched. split.
  - apply (proj1 C1_key_precedence scanned 1 0
             (ExcelCheck.loadRow rowCodeX1) (ExcelCheck.loadRow rowImeiX1)).
    + vm_compute. discriminate.
    + reflexivity.
    + reflexivity.
    + repeat constructor. vm_compute. discriminate.
    + reflexivity.
    + reflexivity.
  - refine (proj2 C1_key_precedence searched 0 (Inventory.loadRow rowCodeX1) _ _ _ _).
    + vm_compute. discriminate.
    + reflexivity.
    + reflexivity.
    + constructor.
Defined.

(** C3 at a list of three counted records, all with integer quantities:
    the three mismatched records are two surplus and one deficit. *)
Lemma C3_summary_witness :
  Forall integerQuantities twoSurplusOneDeficit /\
  ExcelCheck.mismatchedCount (ExcelCheck.excelCheckStats twoSurplusOneDeficit)
  = (countIf isSurplus twoSurplusOneDeficit + countIf isDeficit twoSurplusOneDeficit)%Z.
Proof.
  assert (Hint : Forall integerQuantities twoSurplusOneDeficit).
  { repeat constructor; intros a [= <-]; reflexivity. }
  split; [exact Hint|].
  exact (proj2 (proj2 C3_summary) twoSurplusOneDeficit Hint).
Defined.

(** C5 at the sheet A1, B2: four scans of B2 leave B2 with the actual
    quantity 4 and A1 not counted. *)
Lemma C5_first_record_counts_scans_witness :
  let st := ExcelCheck.handleFileImportForExcelCheck sheetA1B2 emptyExcelCheck in
  let r := ExcelCheck.loadRow [("Mã sản phẩm", "B2"); ("Số lượng", "3")] in
  let items' := ExcelCheck.excelCheckItems (ExcelCheck.scanTimes 4 "B2" st) in
  items' !! 1 = Some (ExcelCheck.setActualQuantity (Some (Num 4)) r) /\
  forall j, j <> 1 -> items' !! j = ExcelCheck.excelCheckItems st !! j.
Proof.
  intros st r.
  apply (C5_first_record_counts_scans st 1 r 4).
  - lia.
  - reflexivity.
  - reflexivity.
  - vm_compute. discriminate.
  - repeat constructor. vm_compute. discriminate.
Defined.

(** C7 at a list of four records under the filter that keeps the
    records with an IMEI: the last record is toggled to verified. *)
Lemma C7_next_unverified_witness :
  let st' := fst (Inventory.handleCheckItem 3 sweepState) in
  let target := snd (Inventory.handleCheckItem 3 sweepState) in
  let filtered := Inventory.filteredInventoryItems st' in
  (forall p it, filtered !! p = Some (3, it) ->
                target = nextUnverifiedTarget filtered p) /\
  (forall t, target = Some t ->
             exists q it, filtered !! q = Some (t, it) /\ Inventory.checked it = false) /\
  (target = None <->
     (forall p it, filtered !! p <> Some (3, it)) \/
     (forall q e, filtered !! q = Some e -> Inventory.checked (snd e) = true)).
Proof.
  exact (C7_next_unverified 3 sweepState (inventoryRecord "D4" false true)
           eq_refl eq_refl).
Defined.

(** The sweep of that witness wraps around: the records after the
    toggled one are filtered out, the first record of the subset is not
    verified. *)
Example sweep_wraps_to_first :
  snd (Inventory.handleCheckItem 3 sweepState) = Some 0
  /\ map fst (Inventory.filteredInventoryItems
                (fst (Inventory.handleCheckItem 3 sweepState))) = [0; 1; 3].
Proof. split; reflexivity. Qed.


(** C9 at the records A1 and B2 and the query xyz, typed with spaces
    around it: the history records the text xyz with no result. *)
Lemma C9_not_found_recorded_witness :
  let items :=
    Inventory.inventoryItems (Inventory.handleFileImport sheetA1B2 emptyInventory) in
  Inventory.handleSearchSubmit (inventoryOf items " xyz ")
  = {| Inventory.inventoryItems := items;
       Inventory.imeiFilter := Inventory.All;
       Inventory.statusFilter := "all";
       Inventory.categoryFilter := "all";
       Inventory.searchQuery := "";
       Inventory.searchHistory := [("xyz", None)];
       Inventory.isSuggestionsVisible := false |}.
Proof.
  intros items.
  refine (C9_not_found_recorded (inventoryOf items " xyz ") _ _).
  - vm_compute. discriminate.
  - repeat constructor; vm_compute; discriminate.
Defined.


(** * More properties of the code *)

(** ** Reading numbers *)

Lemma stripNonDigits_app (a b : string) :
  stripNonDigits (a +:+ b) = stripNonDigits a +:+ stripNonDigits b.
Proof.
  induction a as [|c a IH]; simpl; [done|].
  destruct (isDigit c); simpl; by rewrite IH.
Qed.

Lemma stripNonDigits_all_digits (a : string) :
  stripNonDigits (stripNonDigits a) = stripNonDigits a.
Proof.
  induction a as [|c a IH]; simpl; [done|].
  destruct (isDigit c) eqn:Hc; simpl; [|done]. by rewrite Hc, IH.
Qed.

(** Characters that are not digits do not count: a text reads as the
    same number with or without a separator, a unit or a space, wherever
    it stands. *)
Theorem parseFormattedNumber_ignores_separators (a b : string) (c : ascii) :
  isDigit c = false ->
  parseFormattedNumber (a +:+ String c b) = parseFormattedNumber (a +:+ b).
Proof.
  intros Hc. unfold parseFormattedNumber.
  rewrite !stripNonDigits_app. simpl. by rewrite Hc.
Qed.

Lemma parseFormattedNumber_ignores_separators_witness :
  isDigit "."%char = false /\
  parseFormattedNumber ("1" +:+ String "."%char "234") = parseFormattedNumber ("1" +:+ "234").
Proof.
  split; [reflexivity|].
  apply (parseFormattedNumber_ignores_separators "1" "234" "."%char). reflexivity.
Defined.

Lemma readDigits_app_digit (t : string) :
  forall (acc : option Z) (d : ascii),
    stripNonDigits t = t ->
    isDigit d = true ->
    readDigits acc (t +:+ String d "")
    = Some (10 * default 0%Z (readDigits acc t) + Z.of_nat (nat_of_ascii d - 48))%Z.
Proof.
  induction t as [|c t IH]; intros acc d Ht Hd; simpl.
  - by rewrite Hd.
  - simpl in Ht. destruct (isDigit c) eqn:Hc.
    + injection Ht as Ht. by rewrite IH.
    + exfalso. assert (Hlen : String.length (stripNonDigits t) <= String.length t).
      { clear. induction t as [|c' t IH]; simpl; [lia|]. destruct (isDigit c'); simpl; lia. }
      rewrite Ht in Hlen. simpl in Hlen. lia.
Qed.

(** The value of a digit typed at the end, within the integers that a
    double holds exactly: when the text reads as [n] and ten times [n]
    plus the digit is at most [maxSafeInteger], the longer text reads as
    that number.  Beyond that bound [parseInt] rounds, and the equation
    fails. *)
Theorem parseFormattedNumber_append_digit (s : string) (d : ascii) (n : Z) :
  isDigit d = true ->
  parseFormattedNumber s = Num n ->
  (10 * n + Z.of_nat (nat_of_ascii d - 48) <= maxSafeInteger)%Z ->
  parseFormattedNumber (s +:+ String d "")
  = Num (10 * n + Z.of_nat (nat_of_ascii d - 48)).
Proof.
  intros Hd Hn _. revert Hn. unfold parseFormattedNumber, parseInt10.
  rewrite stripNonDigits_app. simpl. rewrite Hd.
  rewrite (readDigits_app_digit _ None d (stripNonDigits_all_digits s) Hd).
  destruct (readDigits None (stripNonDigits s)) as [z|]; simpl;
    intros [= <-]; reflexivity.
Qed.

(** At the largest text in range: 900.719.925.474.099 reads as
    900719925474099, and with a 1 typed at its end as 2^53 - 1. *)
Lemma parseFormattedNumber_append_digit_witness :
  isDigit "1"%char = true /\
  parseFormattedNumber "900.719.925.474.099" = Num 900719925474099 /\
  (10 * 900719925474099 + Z.of_nat (nat_of_ascii "1"%char - 48) <= maxSafeInteger)%Z /\
  parseFormattedNumber ("900.719.925.474.099" +:+ String "1"%char "")
  = Num 9007199254740991.
Proof.
  split_and!; [reflexivity|reflexivity|vm_compute; discriminate|].
  refine (parseFormattedNumber_append_digit
            "900.719.925.474.099" "1"%char 900719925474099 _ _ _).
  - reflexivity.
  - reflexivity.
  - vm_compute. discriminate.
Defined.

(** ** Looking a column up *)

Section FindValueFacts.
Context `{Builtins}.

Lemma findInRow_Some (target : string) (row : Row) (v : string) :
  findInRow target row = Some v ->
  exists rowKey, In (rowKey, v) row /\ trim (toLowerCase rowKey) = target.
Proof.
  induction row as [|[k w] row IH]; simpl; [done|].
  destruct (String.eqb_spec (trim (toLowerCase k)) target) as [Heq|Hne].
  - intros [= <-]. eauto.
  - intros Hrest. destruct (IH Hrest) as (rowKey & Hin & Hkey). eauto.
Qed.

Lemma findInRow_None (target : string) (row : Row) :
  findInRow target row = None <->
  forall rowKey v, In (rowKey, v) row -> trim (toLowerCase rowKey) <> target.
Proof.
  induction row as [|[k w] row IH]; simpl.
  - split; [by intros _ ? ? []|done].
  - destruct (String.eqb_spec (trim (toLowerCase k)) target) as [Heq|Hne].
    + split; [done|]. intros Hall. by destruct (Hall k w (or_introl eq_refl)).
    + rewrite IH. split.
      * intros Hall rowKey v [[= <- <-]|Hin]; eauto.
      * intros Hall rowKey v Hin. eauto.
Qed.

(** [findValue] finds a value exactly when some alias equals some header
    of the row, both lower-cased and trimmed: the value found is the cell
    under such a header, and nothing is found only when no header matches
    any alias. *)
Theorem findValue_matching_header (row : Row) (keys : list string) :
  (forall v, findValue row keys = Some v ->
     exists targetKey rowKey,
       In targetKey keys /\ In (rowKey, v) row /\
       trim (toLowerCase rowKey) = trim (toLowerCase targetKey)) /\
  (findValue row keys = None <->
     forall targetKey rowKey v,
       In targetKey keys -> In (rowKey, v) row ->
       trim (toLowerCase rowKey) <> trim (toLowerCase targetKey)).
Proof.
  induction keys as [|k keys [IHs IHn]]; simpl.
  - split; [done|]. split; [by intros _ ? ? ? []|done].
  - destruct (findInRow (trim (toLowerCase k)) row) as [w|] eqn:Hk.
    + split.
      * intros v [= <-]. apply findInRow_Some in Hk as (rowKey & Hin & Hkey).
        exists k, rowKey. eauto.
      * split; [done|]. intros Hall.
        apply findInRow_Some in Hk as (rowKey & Hin & Hkey).
        by destruct (Hall k rowKey w (or_introl eq_refl) Hin).
    + split.
      * intros v Hv. destruct (IHs v Hv) as (t & rk & Ht & Hin & Hkey).
        exists t, rk. eauto.
      * rewrite IHn. rewrite findInRow_None in Hk. split.
        -- intros Hall t rk v [<-|Ht] Hin; eauto.
        -- intros Hall t rk v Ht Hin. eauto.
Qed.

Lemma findInRow_first (target : string) (before after : Row) (rowKey v : string) :
  (forall k w, In (k, w) before -> trim (toLowerCase k) <> target) ->
  trim (toLowerCase rowKey) = target ->
  findInRow target (before ++ (rowKey, v) :: after)%list = Some v.
Proof.
  intros Hbefore Hkey. induction before as [|[k w] before IH]; simpl.
  - apply String.eqb_eq in Hkey. by rewrite Hkey.
  - destruct (String.eqb_spec (trim (toLowerCase k)) target) as [Heq|Hne].
    + by destruct (Hbefore k w (or_introl eq_refl)).
    + apply IH. intros k' w' Hin. apply (Hbefore k' w'). by right.
Qed.

(** The aliases are tried in order and the headers of the row in
    order: when some header matches the first alias, the value found is
    the cell under the first such header, whatever the row holds under
    the later aliases. *)
Theorem findValue_first_alias_first_header (before after : Row)
    (k : string) (keys : list string) (rowKey v : string) :
  (forall k' w, In (k', w) before ->
                trim (toLowerCase k') <> trim (toLowerCase k)) ->
  trim (toLowerCase rowKey) = trim (toLowerCase k) ->
  findValue (before ++ (rowKey, v) :: after)%list (k :: keys) = Some v.
Proof.
  intros Hbefore Hkey. simpl. by rewrite (findInRow_first _ _ _ _ _ Hbefore Hkey).
Qed.

End FindValueFacts.

Lemma findValue_first_alias_first_header_witness :
  findValue ([("Mã", "A1")] ++ (" GIA ", "2.000") :: [("gia ban", "3.000"); ("Gia", "4.000")])%list
    ["gia"; "gia ban"]
  = Some "2.000".
Proof.
  refine (findValue_first_alias_first_header [("Mã", "A1")]
            [("gia ban", "3.000"); ("Gia", "4.000")] "gia" ["gia ban"] " GIA " "2.000" _ _).
  - intros k' w [[= <- <-]|[]]. vm_compute. discriminate.
  - reflexivity.
Defined.

(** ** What the loaders guarantee *)

Lemma orString_default_nonempty (v : option string) (d : string) :
  d <> "" -> orString v d <> "".
Proof.
  intros Hd. destruct v as [s|]; simpl; [|done].
  destruct (String.eqb_spec s ""); done.
Qed.

Section LoaderInvariants.
Context `{Builtins}.

Lemma getCategoryFromProductName_nonempty (name : string) :
  getCategoryFromProductName name <> "".
Proof.
  unfold getCategoryFromProductName.
  repeat match goal with
         | |- context [if ?b then _ else _] => destruct b
         end; discriminate.
Qed.

Lemma finalCategory_nonempty (productName originalCategory : option string) :
  finalCategory productName originalCategory <> "".
Proof.
  unfold finalCategory.
  destruct (String.eqb _ "default").
  - by apply orString_default_nonempty.
  - apply getCategoryFromProductName_nonempty.
Qed.

(** No loaded record has an empty name, status or category: the loaders
    put ["N/A"] where the sheet gives nothing.  An IMEI is either absent
    or not empty. *)
Theorem loaded_fields_not_empty (row : Row) :
  Inventory.productName (Inventory.loadRow row) <> "" /\
  Inventory.status (Inventory.loadRow row) <> "" /\
  Inventory.category (Inventory.loadRow row) <> "" /\
  ExcelCheck.productName (ExcelCheck.loadRow row) <> "" /\
  ExcelCheck.category (ExcelCheck.loadRow row) <> "" /\
  ExcelCheck.imei (ExcelCheck.loadRow row) <> Some "".
Proof.
  unfold Inventory.loadRow, ExcelCheck.loadRow.
  cbn [Inventory.productName Inventory.status Inventory.category
       ExcelCheck.productName ExcelCheck.category ExcelCheck.imei].
  split_and!;
    try (by apply orString_default_nonempty);
    try apply finalCategory_nonempty.
  destruct (String.eqb_spec
              (if truthy (findValue row ["IMEI_1"])
               then stripQuote (trim (orString (findValue row ["IMEI_1"]) ""))
               else "") "") as [Heq|Hne]; [done|].
  intros [= Himei]. done.
Qed.

(** The QR value of a loaded record is its IMEI, trimmed and without a
    leading quote, when the row has a non-empty IMEI, and is its product
    code otherwise. *)
Theorem loaded_qrCode (row : Row) :
  let item := Inventory.loadRow row in
  (Inventory.hasImei item = false ->
   Inventory.qrCode item = Inventory.productCodeForSearch item) /\
  (forall imei, findValue row ["IMEI_1"] = Some imei -> imei <> "" ->
     Inventory.hasImei item = true /\
     Inventory.qrCode item = stripQuote (trim imei)).
Proof.
  unfold Inventory.loadRow.
  cbn [Inventory.hasImei Inventory.qrCode Inventory.productCodeForSearch].
  split.
  - intros Hno. by rewrite (truthy_false _ _ Hno).
  - intros imei Himei Hne. rewrite Himei. simpl.
    by rewrite (eqb_empty_false _ Hne).
Qed.

Lemma uncounted_summary (items : list ExcelCheck.ExcelCheckItem) :
  Forall (fun item => ExcelCheck.actualQuantity item = None) items ->
  countedQuantities items = [] /\
  countIf isMatched items = 0%Z /\
  countIf isMismatched items = 0%Z /\
  ExcelCheckEdit.mismatchedItems items = [].
Proof.
  induction 1 as [|item items Hitem _ (IHq & IHm & IHmm & IHl)]; [done|].
  split_and!.
  - unfold countedQuantities in *. simpl. by rewrite Hitem.
  - rewrite countIf_cons, IHm. unfold isMatched, difference. by rewrite Hitem.
  - rewrite countIf_cons, IHmm. unfold isMismatched, difference. by rewrite Hitem.
  - unfold ExcelCheckEdit.mismatchedItems in *. simpl.
    unfold ExcelCheckEdit.isMismatchedItem at 1. by rewrite Hitem.
Qed.

(** A new sheet starts a new count: whatever the state before, after the
    import no record is counted, the summary shows no actual quantity, no
    matched and no mismatched record, and the list of mismatched records
    is empty. *)
Theorem import_starts_uncounted (json : list Row) (st : ExcelCheck.State) :
  let items :=
    ExcelCheck.excelCheckItems (ExcelCheck.handleFileImportForExcelCheck json st) in
  Forall (fun item => ExcelCheck.actualQuantity item = None) items /\
  ExcelCheck.totalActualQuantity (ExcelCheck.excelCheckStats items) = Num 0 /\
  ExcelCheck.matchedCount (ExcelCheck.excelCheckStats items) = 0%Z /\
  ExcelCheck.mismatchedCount (ExcelCheck.excelCheckStats items) = 0%Z /\
  ExcelCheckEdit.mismatchedItems items = [].
Proof.
  cbn [ExcelCheck.handleFileImportForExcelCheck ExcelCheck.excelCheckItems].
  assert (Hnull : Forall (fun item => ExcelCheck.actualQuantity item = None)
                    (map ExcelCheck.loadRow json)).
  { apply Forall_forall. intros item Hin.
    apply list_elem_of_fmap in Hin as (row & -> & _). done. }
  split; [exact Hnull|].
  destruct (uncounted_summary _ Hnull) as (Hq & Hm & Hmm & Hl).
  unfold ExcelCheck.excelCheckStats. rewrite fold_statsStep.
  cbn [ExcelCheck.totalActualQuantity ExcelCheck.matchedCount
       ExcelCheck.mismatchedCount].
  by rewrite Hq, Hm, Hmm, Hl.
Qed.

(** A new sheet shows every record: after the import the filtered view
    is the whole list, each record with its index, nothing is checked and
    the search history is empty. *)
Theorem import_shows_every_record (json : list Row) (st : Inventory.State) :
  let st' := Inventory.handleFileImport json st in
  Inventory.filteredInventoryItems st'
  = Inventory.withOriginalIndex (map Inventory.loadRow json) /\
  Forall (fun item => Inventory.checked item = false) (Inventory.inventoryItems st') /\
  Inventory.searchHistory st' = [].
Proof.
  cbn [Inventory.handleFileImport Inventory.inventoryItems Inventory.searchHistory].
  split_and!; [|apply Forall_forall|done].
  - unfold Inventory.filteredInventoryItems, Inventory.applyFilters. simpl.
    generalize (Inventory.withOriginalIndex (map Inventory.loadRow json)).
    intros l. induction l as [|e l IH]; [done|]. simpl in *. by rewrite IH.
  - intros item Hin. apply list_elem_of_fmap in Hin as (row & -> & _). done.
Qed.

End LoaderInvariants.

Lemma loaded_qrCode_witness :
  let row := [("Tên sản phẩm", "Loa JBL"); ("Mã sản phẩm", "A1"); ("IMEI_1", " '356 ")] in
  Inventory.hasImei (Inventory.loadRow row) = true /\
  Inventory.qrCode (Inventory.loadRow row) = "356".
Proof.
  intros row.
  refine (proj2 (loaded_qrCode row) " '356 " _ _).
  - reflexivity.
  - discriminate.
Defined.

(** ** The filtered view and the toggle *)

Section ViewFacts.
Import Inventory.

Lemma applyFilters_In_iff fi fs fc (l : list (nat * InventoryItem)) e :
  In e (applyFilters fi fs fc l) <->
  In e l /\ passesImei fi e = true /\ passesStatus fs e = true
  /\ passesCategory fc e = true.
Proof. unfold applyFilters. rewrite !filter_In. tauto. Qed.

Lemma increasing_tail e l : increasing (e :: l) -> increasing l.
Proof. intros Hl p q x y Hpq Hp Hq. apply (Hl (S p) (S q)); [lia|done..]. Qed.

Lemma increasing_filter (f : nat * InventoryItem -> bool) l :
  increasing l -> increasing (List.filter f l).
Proof.
  induction l as [|e l IH]; intros Hl; simpl; [done|].
  specialize (IH (increasing_tail _ _ Hl)).
  destruct (f e); [|done].
  intros [|p] [|q] x y Hpq Hp Hq; simpl in *; try lia.
  - simplify_eq. apply list_elem_of_lookup_2, list_elem_of_In, filter_In in Hq as [Hq _].
    apply list_elem_of_In, list_elem_of_lookup in Hq as [q' Hq'].
    apply (Hl 0 (S q')); [lia|done..].
  - apply (IH p q); [lia|done..].
Qed.

Lemma increasing_withOriginalIndex (items : list InventoryItem) :
  increasing (withOriginalIndex items).
Proof.
  intros p q x y Hpq Hp Hq. rewrite withOriginalIndex_lookup in Hp, Hq.
  destruct (items !! p), (items !! q); simplify_eq/=. done.
Qed.

(** The filtered view holds exactly the records that pass the three
    filters, each paired with its index in the full list, and lists them
    in load order. *)
Theorem filtered_view_exact (st : State) :
  (forall i item,
      In (i, item) (filteredInventoryItems st) <->
      inventoryItems st !! i = Some item /\
      passesImei (imeiFilter st) (i, item) = true /\
      passesStatus (statusFilter st) (i, item) = true /\
      passesCategory (categoryFilter st) (i, item) = true) /\
  (forall p q x y,
      p < q ->
      filteredInventoryItems st !! p = Some x ->
      filteredInventoryItems st !! q = Some y ->
      fst x < fst y).
Proof.
  split.
  - intros i item. unfold filteredInventoryItems. rewrite applyFilters_In_iff.
    assert (Hin : In (i, item) (withOriginalIndex (inventoryItems st))
                  <-> inventoryItems st !! i = Some item).
    { rewrite <- list_elem_of_In, list_elem_of_lookup. split.
      - intros [k Hk]. rewrite withOriginalIndex_lookup in Hk.
        destruct (inventoryItems st !! k) eqn:E; simplify_eq/=. done.
      - intros Hi. exists i. by rewrite withOriginalIndex_lookup, Hi. }
    tauto.
  - unfold filteredInventoryItems, applyFilters.
    do 3 apply increasing_filter. apply increasing_withOriginalIndex.
Qed.

Lemma filter_sameForFilters (f : nat * InventoryItem -> bool) l l' :
  (forall e e', sameForFilters e e' -> f e = f e') ->
  Forall2 sameForFilters l l' ->
  Forall2 sameForFilters (List.filter f l) (List.filter f l').
Proof.
  intros Hf. induction 1 as [|e e' l l' He _ IH]; simpl; [done|].
  rewrite (Hf e e' He). destruct (f e'); [by constructor|done].
Qed.

Lemma toggleAt_length (originalIndex : nat) (items : list InventoryItem) :
  length (toggleAt originalIndex items) = length items.
Proof. unfold toggleAt. apply length_imap. Qed.

Lemma withOriginalIndex_length (items : list InventoryItem) :
  length (withOriginalIndex items) = length items.
Proof. unfold withOriginalIndex. apply length_imap. Qed.

(** Toggling a record never changes which records are visible: the
    filtered view after the toggle lists the same indices, in the same
    order, as before. *)
Theorem toggle_keeps_view (originalIndex : nat) (st : State) :
  map fst (filteredInventoryItems (fst (handleCheckItem originalIndex st)))
  = map fst (filteredInventoryItems st).
Proof.
  rewrite filtered_after_toggle. unfold filteredInventoryItems.
  assert (Hsame : Forall2 sameForFilters
            (withOriginalIndex (toggleAt originalIndex (inventoryItems st)))
            (withOriginalIndex (inventoryItems st))).
  { apply Forall2_same_length_lookup_2.
    - by rewrite !withOriginalIndex_length, toggleAt_length.
    - intros i e e' He He'. rewrite withOriginalIndex_lookup in He, He'.
      rewrite toggleAt_lookup in He.
      destruct (inventoryItems st !! i) as [item|]; simplify_eq/=.
      by destruct (i =? originalIndex)%nat. }
  unfold applyFilters.
  apply (filter_sameForFilters (passesImei (imeiFilter st))) in Hsame.
  2: { intros e e' (_ & Hi & _). unfold passesImei. by rewrite Hi. }
  apply (filter_sameForFilters (passesStatus (statusFilter st))) in Hsame.
  2: { intros e e' (_ & _ & Hs & _). unfold passesStatus. by rewrite Hs. }
  apply (filter_sameForFilters (passesCategory (categoryFilter st))) in Hsame.
  2: { intros e e' (_ & _ & _ & Hc). unfold passesCategory. by rewrite Hc. }
  induction Hsame as [|e e' l l' (He & _) _ IH]; simpl; [done|].
  by rewrite He, IH.
Qed.

(** A toggle touches one record only: the list keeps its length, the
    record at the index gets the opposite flag and nothing else of it
    changes, every other record is as before.  An index outside the list
    changes nothing and navigates nowhere. *)
Theorem toggle_touches_one_record (originalIndex : nat) (st : State) :
  let st' := fst (handleCheckItem originalIndex st) in
  length (inventoryItems st') = length (inventoryItems st) /\
  (forall j, j <> originalIndex ->
             inventoryItems st' !! j = inventoryItems st !! j) /\
  (forall item, inventoryItems st !! originalIndex = Some item ->
                inventoryItems st' !! originalIndex = Some (toggleChecked item)) /\
  (length (inventoryItems st) <= originalIndex ->
   handleCheckItem originalIndex st = (st, None)).
Proof.
  cbn zeta. rewrite handleCheckItem_state. cbn [setInventoryItems inventoryItems].
  split_and!.
  - apply toggleAt_length.
  - intros j Hj. rewrite toggleAt_lookup.
    destruct (Nat.eqb_spec j originalIndex); [done|].
    by destruct (inventoryItems st !! j).
  - intros item Hitem. by rewrite toggleAt_lookup, Hitem, Nat.eqb_refl.
  - intros Hout.
    assert (Hid : toggleAt originalIndex (inventoryItems st) = inventoryItems st).
    { apply list_eq. intros j. rewrite toggleAt_lookup.
      destruct (inventoryItems st !! j) as [item|] eqn:Hj; simpl; [|done].
      apply lookup_lt_Some in Hj.
      destruct (Nat.eqb_spec j originalIndex); [lia|done]. }
    assert (Hst : fst (handleCheckItem originalIndex st) = st).
    { rewrite handleCheckItem_state, Hid. by destruct st. }
    assert (Htarget : snd (handleCheckItem originalIndex st) = None).
    { rewrite handleCheckItem_target, Hst.
      destruct (list_find _ _) as [[p [i item]]|] eqn:Hfind; [|done].
      apply list_find_Some in Hfind as (Hp & Hi & _). simpl in Hi. subst i.
      apply filtered_member in Hp. simpl in Hp.
      apply lookup_lt_Some in Hp. lia. }
    destruct (handleCheckItem originalIndex st) as [s t]. simpl in *. by subst.
Qed.

(** The sweep never points at the record that was just toggled, also
    when the toggle took the check away and that record is the only one
    left unchecked. *)
Theorem target_is_another_record (originalIndex : nat) (st : State) :
  snd (handleCheckItem originalIndex st) <> Some originalIndex.
Proof.
  rewrite handleCheckItem_target.
  destruct (list_find _ _) as [[p [i item]]|] eqn:Hfind; [|done].
  apply list_find_Some in Hfind as (Hp & Hi & _). simpl in Hi. subst i.
  intros Ht. apply nextUnverifiedTarget_Some in Ht as (q & it & Hq & _ & Hne).
  apply Hne. by eapply filtered_position_unique.
Qed.

End ViewFacts.

Lemma toggle_touches_one_record_witness :
  Inventory.handleCheckItem 7 sweepState = (sweepState, None) /\
  Inventory.inventoryItems (fst (Inventory.handleCheckItem 3 sweepState)) !! 3
  = Some (inventoryRecord "D4" true true).
Proof.
  split.
  - refine (proj2 (proj2 (proj2 (toggle_touches_one_record 7 sweepState))) _).
    simpl. lia.
  - refine (proj1 (proj2 (proj2 (toggle_touches_one_record 3 sweepState)))
              (inventoryRecord "D4" false true) _).
    reflexivity.
Defined.

Lemma target_is_another_record_witness :
  snd (Inventory.handleCheckItem 0 sweepState) <> Some 0.
Proof. exact (target_is_another_record 0 sweepState). Defined.

Lemma filtered_view_exact_witness :
  In (3, inventoryRecord "D4" false true) (Inventory.filteredInventoryItems sweepState).
Proof.
  refine (proj2 (proj1 (filtered_view_exact sweepState) 3
                   (inventoryRecord "D4" false true)) _).
  repeat split.
Defined.

(** ** What the search finds *)

Section SearchResults.
Context `{Builtins}.
Import Inventory.

Lemma head_filter_Some {A : Type} (f : A -> bool) (l : list A) (x : A) :
  head (List.filter f l) = Some x <->
  exists m, l !! m = Some x /\ f x = true /\
            Forall (fun y => f y = false) (take m l).
Proof.
  induction l as [|a l IH]; simpl.
  - split; [done|]. by intros (m & Hm & _).
  - destruct (f a) eqn:Ha; simpl.
    + split.
      * intros [= <-]. exists 0. simpl. split_and!; [done..|constructor].
      * intros ([|m] & Hm & Hx & Hfirst); simpl in *; [by simplify_eq|].
        apply Forall_cons in Hfirst as [Hfa _]. congruence.
    + rewrite IH. split.
      * intros (m & Hm & Hx & Hfirst). exists (S m). simpl.
        split_and!; [done..|by constructor].
      * intros ([|m] & Hm & Hx & Hfirst); simpl in *; [simplify_eq; congruence|].
        apply Forall_cons in Hfirst as [_ Hfirst]. eauto.
Qed.

Lemma head_filter_None {A : Type} (f : A -> bool) (l : list A) :
  head (List.filter f l) = None <-> Forall (fun y => f y = false) l.
Proof.
  induction l as [|a l IH]; simpl; [split; [constructor|done]|].
  destruct (f a) eqn:Ha; simpl.
  - split; [done|]. intros Hall. apply Forall_cons in Hall as [Hfa _]. congruence.
  - rewrite IH. split; [by constructor|]. intros Hall. by apply Forall_cons in Hall as [_ ?].
Qed.

(** What the search resolves a query to.  A record is found by key only
    if it is the first record one of whose keys matches; it is found by
    name only if no record matches by key and it is the first record
    whose name contains the query; nothing is found exactly when no
    record matches by key or by name. *)
Theorem resolveSearch_exact (items : list InventoryItem) (query : string) :
  (forall item,
      resolveSearch items query = Some item <->
      exists m, items !! m = Some item /\
        ((keyMatches query item = true /\
          Forall (fun rk => keyMatches query rk = false) (take m items))
         \/
         (Forall (fun rk => keyMatches query rk = false) items /\
          nameMatches query item = true /\
          Forall (fun rk => nameMatches query rk = false) (take m items)))) /\
  (resolveSearch items query = None <->
   Forall (fun rk => keyMatches query rk = false /\ nameMatches query rk = false)
          items).
Proof.
  unfold resolveSearch, findByKey.
  destruct (list_find (fun item => keyMatches query item) items)
    as [[m0 item0]|] eqn:Hfind.
  - apply list_find_Some in Hfind as (Hm0 & Hkey0 & Hfirst0).
    apply Is_true_true in Hkey0.
    assert (Hbefore : Forall (fun rk => keyMatches query rk = false) (take m0 items)).
    { apply Forall_lookup. intros k rk Hk. apply lookup_take_Some in Hk as [Hk Hlt].
      specialize (Hfirst0 k rk Hk Hlt). by destruct (keyMatches query rk). }
    split.
    + intros item. split.
      * intros [= <-]. exists m0. eauto.
      * intros (m & Hm & [[Hkey Hfirst]|[Hnone _]]).
        -- destruct (Nat.lt_trichotomy m m0) as [Hlt|[->|Hgt]].
           ++ specialize (Hfirst0 m item Hm Hlt). by rewrite Hkey in Hfirst0.
           ++ congruence.
           ++ rewrite Forall_lookup in Hfirst.
              rewrite (Hfirst m0 item0) in Hkey0; [done|].
              apply lookup_take_Some. by split.
        -- rewrite Forall_lookup in Hnone. by rewrite (Hnone m0 item0 Hm0) in Hkey0.
    + split; [done|]. intros Hnone. rewrite Forall_lookup in Hnone.
      destruct (Hnone m0 item0 Hm0) as [Hk _]. congruence.
  - apply list_find_None in Hfind.
    assert (Hnokey : Forall (fun rk => keyMatches query rk = false) items).
    { eapply Forall_impl; [exact Hfind|]. intros rk Hrk. simpl in Hrk.
      by destruct (keyMatches query rk). }
    split.
    + intros item. rewrite head_filter_Some. split.
      * intros (m & Hm & Hname & Hfirst). exists m. split; [done|]. right. eauto.
      * intros (m & Hm & [[Hkey _]|(_ & Hname & Hfirst)]).
        -- rewrite Forall_lookup in Hnokey. by rewrite (Hnokey m item Hm) in Hkey.
        -- eauto.
    + rewrite head_filter_None. split.
      * intros Hnoname. apply Forall_forall. intros rk Hrk.
        rewrite Forall_forall in Hnokey, Hnoname. eauto.
      * intros Hnone. eapply Forall_impl; [exact Hnone|]. by intros rk [_ ?].
Qed.

Variable codeUnits : string -> nat.

(** The suggestions: at most seven, each the record at its index with a
    name that contains the lower-cased query, in load order, shown
    exactly when there is one; none off the search page and none for a
    query of less than two code units once trimmed. *)
Theorem suggestions_bounded (currentPage : InventoryView.Page) (st : State) :
  let suggestions := fst (InventoryView.suggestionsFor codeUnits currentPage st) in
  let visible := snd (InventoryView.suggestionsFor codeUnits currentPage st) in
  length suggestions <= 7 /\
  (forall i item, In (i, item) suggestions ->
      inventoryItems st !! i = Some item /\
      includes (toLowerCase (productName item)) (toLowerCase (searchQuery st)) = true) /\
  (forall p q x y, p < q -> suggestions !! p = Some x -> suggestions !! q = Some y ->
                   fst x < fst y) /\
  (visible = true <-> suggestions <> []) /\
  (InventoryView.onSearchPage currentPage = false \/
   codeUnits (trim (searchQuery st)) <= 1 -> suggestions = []).
Proof.
  unfold InventoryView.suggestionsFor.
  destruct (InventoryView.onSearchPage currentPage
            && (1 <? codeUnits (trim (searchQuery st)))%nat) eqn:Hcond; simpl.
  - set (matches := List.filter _ _).
    split_and!.
    + rewrite length_take. lia.
    + intros i item Hin.
      apply list_elem_of_In, list_elem_of_lookup in Hin as [p Hp].
      apply lookup_take_Some in Hp as [Hp _].
      apply list_elem_of_lookup_2, list_elem_of_In, filter_In in Hp as [Hin Hname].
      split; [|exact Hname].
      apply list_elem_of_In, list_elem_of_lookup in Hin as [k Hk].
      rewrite withOriginalIndex_lookup in Hk.
      destruct (inventoryItems st !! k) eqn:E; simplify_eq/=. done.
    + intros p q x y Hpq Hp Hq.
      apply lookup_take_Some in Hp as [Hp _]. apply lookup_take_Some in Hq as [Hq _].
      eapply (increasing_filter _ _ (increasing_withOriginalIndex _)); eauto.
    + destruct (take 7 matches) as [|e l]; simpl; split; done.
    + apply andb_true_iff in Hcond as [Hpage Hlen]. apply Nat.ltb_lt in Hlen.
      intros [Hoff|Hshort]; [congruence|lia].
  - split_and!; [lia|by intros ? ? []|by intros ? ? ? ? ? ?| |done].
    split; done.
Qed.

End SearchResults.

Lemma resolveSearch_exact_witness :
  Inventory.resolveSearch
    (Inventory.inventoryItems (Inventory.handleFileImport sheetA1A1 emptyInventory)) "sony"
  = Some (Inventory.loadRow
            [("Tên sản phẩm", "Loa Sony"); ("Mã sản phẩm", "A1"); ("Số lượng", "3")]).
Proof.
  refine (proj2 (proj1 (resolveSearch_exact _ "sony") _) _).
  exists 1. split; [reflexivity|]. right.
  split_and!; [repeat constructor|reflexivity|repeat constructor].
Defined.

Lemma suggestions_bounded_witness :
  fst (InventoryView.suggestionsFor String.length InventoryView.kiem_tra_ton_kho
         (inventoryOf
            (Inventory.inventoryItems (Inventory.handleFileImport sheetA1A1 emptyInventory))
            " l "))
  = [].
Proof.
  refine (proj2 (proj2 (proj2 (proj2
            (suggestions_bounded String.length InventoryView.kiem_tra_ton_kho _)))) _).
  right. vm_compute. lia.
Defined.

(** ** What a scan and a manual count do to the records *)



Lemma strictEq_difference (a f : number) :
  strictEq (sub a f) (Num 0) = strictEq a f.
Proof.
  destruct a as [|x], f as [|y]; simpl; try done.
  destruct (Z.eqb_spec (x - y) 0), (Z.eqb_spec x y); lia || done.
Qed.

Section ScanFacts.
Context `{Builtins}.
Import ExcelCheck.

Lemma findScanned_Some (items : list ExcelCheckItem) (sq : string) i r :
  findScanned items sq = Some (i, r) ->
  items !! i = Some r /\
  (cleanString (Some (productCode r)) = sq \/ cleanString (imei r) = sq).
Proof.
  unfold findScanned, findByProductCode, findByImei.
  destruct (list_find _ items) as [[i0 r0]|] eqn:Hcode.
  - intros [= -> ->]. apply list_find_Some in Hcode as (Hi & Hr & _). eauto.
  - intros Himei. apply list_find_Some in Himei as (Hi & Hr & _). eauto.
Qed.

(** A scan counts on one record at most, and only on a record that it
    matched: either the records are as before, or exactly the record at
    the index reported as last scanned has gained one, and the cleaned
    product code or the cleaned IMEI of that record is the sanitized
    text.  No other field of any record changes. *)
Theorem scan_counts_one_matching_record (st : State) :
  let st' := handleScanSubmit st in
  let sanitizedQuery := toLowerCase (stripQuote (trim (scanQuery st))) in
  excelCheckItems st' = excelCheckItems st \/
  exists i r,
    excelCheckItems st !! i = Some r /\
    (cleanString (Some (productCode r)) = sanitizedQuery
     \/ cleanString (imei r) = sanitizedQuery) /\
    lastScannedIndex st' = Some i /\
    excelCheckItems st'
    = <[i := setActualQuantity (increment (actualQuantity r)) r]> (excelCheckItems st).
Proof.
  cbn zeta. unfold handleScanSubmit.
  destruct (String.eqb (trim (scanQuery st)) ""); [by left|].
  destruct (findScanned _ _) as [[i r]|] eqn:Hfound; [|by left].
  right. exists i, r. apply findScanned_Some in Hfound as [Hi Hmatch]. done.
Qed.

(** When no product code matches, the scan falls back on the IMEI: it is
    counted on the first record in load order whose cleaned IMEI is the
    sanitized text. *)
Theorem scan_falls_back_on_imei (st : State) (i : nat) (r : ExcelCheckItem) :
  let sanitizedQuery := toLowerCase (stripQuote (trim (scanQuery st))) in
  trim (scanQuery st) <> "" ->
  Forall (fun rk => cleanString (Some (productCode rk)) <> sanitizedQuery)
         (excelCheckItems st) ->
  excelCheckItems st !! i = Some r ->
  cleanString (imei r) = sanitizedQuery ->
  Forall (fun rk => cleanString (imei rk) <> sanitizedQuery)
         (take i (excelCheckItems st)) ->
  handleScanSubmit st
  = {| excelCheckItems :=
         <[i := setActualQuantity (increment (actualQuantity r)) r]>
           (excelCheckItems st);
       scanQuery := "";
       scanStatus := {| type := success;
                        message := "Đã cập nhật: " +:+ productName r |};
       lastScannedIndex := Some i |}.
Proof.
  intros sq Hq Hnocode Hi Himei Hfirst. apply handleScanSubmit_hit; [done|].
  unfold findScanned, findByProductCode, findByImei. fold sq.
  assert (Hcode : list_find
            (fun item => cleanString (Some (productCode item)) = sq)
            (excelCheckItems st) = None) by by apply list_find_None.
  rewrite Hcode. apply list_find_Some. split_and!; [done..|].
  intros k rk Hk Hlt. rewrite Forall_lookup in Hfirst. apply (Hfirst k).
  apply lookup_take_Some. by split.
Qed.

Lemma increment_valid (a : option number) :
  validActual a ->
  exists k : Z, increment a = Some (Num (k + 1)) /\ (0 <= k)%Z
                /\ sumNumbers (option_list a) = Num k.
Proof.
  unfold increment, orZero, truthyNumber.
  destruct a as [[|k]|]; simpl; [done| |].
  - intros Hk. exists k. destruct (Z.eqb_spec k 0) as [->|]; simpl.
    + done.
    + split_and!; [done..|]. f_equal. lia.
  - intros _. by exists 0%Z.
Qed.

Lemma parseInt_valid (value : string) :
  validActual (if isNaN (parseInt value) || ltNumber (parseInt value) (Num 0)
               then None else Some (parseInt value)).
Proof.
  destruct (parseInt value) as [|k]; simpl; [done|].
  destruct (Z.ltb_spec k 0); simpl; [done|lia].
Qed.

(** Counts stay counts: if every actual quantity is absent or an
    integer that is not negative, it is so again after a scan and after a
    manual count, whatever is scanned or typed. *)
Theorem counts_stay_valid (st : State) :
  Forall (fun item => validActual (actualQuantity item)) (excelCheckItems st) ->
  Forall (fun item => validActual (actualQuantity item))
         (excelCheckItems (handleScanSubmit st)) /\
  forall index value st',
    ExcelCheckEdit.handleActualQuantityChange index value st = Some st' ->
    Forall (fun item => validActual (actualQuantity item)) (excelCheckItems st').
Proof.
  intros Hvalid. split.
  - unfold handleScanSubmit.
    destruct (String.eqb (trim (scanQuery st)) ""); [done|].
    destruct (findScanned _ _) as [[i r]|] eqn:Hfound; [|done].
    apply findScanned_Some in Hfound as [Hi _]. cbn [excelCheckItems].
    apply Forall_insert; [done|]. cbn [actualQuantity setActualQuantity].
    rewrite Forall_lookup in Hvalid.
    destruct (increment_valid _ (Hvalid i r Hi)) as (k & -> & Hk & _). simpl. lia.
  - intros index value st'. unfold ExcelCheckEdit.handleActualQuantityChange.
    destruct (excelCheckItems st !! index) as [item|]; [|done].
    intros [= <-]. simpl. apply Forall_insert; [done|]. simpl.
    apply parseInt_valid.
Qed.




End ScanFacts.

(** The list of mismatched records and the count of the summary agree:
    the list holds exactly the counted records whose difference is not 0,
    in load order, and its length is the mismatched count, NaN
    quantities included. *)
Theorem mismatched_list_is_the_count (items : list ExcelCheck.ExcelCheckItem) :
  ExcelCheckEdit.mismatchedItems items = List.filter isMismatched items /\
  Z.of_nat (length (ExcelCheckEdit.mismatchedItems items))
  = ExcelCheck.mismatchedCount (ExcelCheck.excelCheckStats items).
Proof.
  assert (Heq : ExcelCheckEdit.mismatchedItems items = List.filter isMismatched items).
  { unfold ExcelCheckEdit.mismatchedItems. apply filter_ext. intros item.
    unfold ExcelCheckEdit.isMismatchedItem, isMismatched, difference.
    destruct (ExcelCheck.actualQuantity item) as [a|]; simpl; [|done].
    by rewrite strictEq_difference. }
  split; [exact Heq|].
  unfold ExcelCheck.excelCheckStats. rewrite fold_statsStep, Heq.
  cbn [ExcelCheck.mismatchedCount]. unfold countIf. lia.
Qed.

Lemma scan_falls_back_on_imei_witness :
  ExcelCheck.handleScanSubmit
    (ExcelCheck.setScanQuery " x1 "
       (ExcelCheck.handleFileImportForExcelCheck [rowImeiX1] emptyExcelCheck))
  = {| ExcelCheck.excelCheckItems :=
         [ExcelCheck.setActualQuantity (Some (Num 1)) (ExcelCheck.loadRow rowImeiX1)];
       ExcelCheck.scanQuery := "";
       ExcelCheck.scanStatus :=
         {| ExcelCheck.type := ExcelCheck.success;
            ExcelCheck.message := "Đã cập nhật: Loa Sony" |};
       ExcelCheck.lastScannedIndex := Some 0 |}.
Proof.
  refine (scan_falls_back_on_imei
            (ExcelCheck.setScanQuery " x1 "
               (ExcelCheck.handleFileImportForExcelCheck [rowImeiX1] emptyExcelCheck))
            0 (ExcelCheck.loadRow rowImeiX1) _ _ _ _ _).
  - vm_compute. discriminate.
  - repeat constructor. vm_compute. discriminate.
  - reflexivity.
  - reflexivity.
  - constructor.
Defined.

Lemma counts_stay_valid_witness :
  let st := ExcelCheck.setScanQuery "A1"
              (ExcelCheck.handleFileImportForExcelCheck sheetA1B2 emptyExcelCheck) in
  Forall (fun item => validActual (ExcelCheck.actualQuantity item))
         (ExcelCheck.excelCheckItems (ExcelCheck.handleScanSubmit st)).
Proof.
  intros st. refine (proj1 (counts_stay_valid st _)).
  repeat constructor.
Defined.



Lemma handleScanSubmit_unmatched_witness :
  let st := ExcelCheck.setScanQuery " xyz "
              (ExcelCheck.handleFileImportForExcelCheck sheetA1B2 emptyExcelCheck) in
  ExcelCheck.handleScanSubmit st
  = {| ExcelCheck.excelCheckItems := ExcelCheck.excelCheckItems st;
       ExcelCheck.scanQuery := "";
       ExcelCheck.scanStatus :=
         {| ExcelCheck.type := ExcelCheck.error;
            ExcelCheck.message := "Không tìm thấy sản phẩm với mã: xyz" |};
       ExcelCheck.lastScannedIndex := None |}.
Proof.
  intros st. refine (handleScanSubmit_unmatched st _ _).
  - vm_compute. discriminate.
  - repeat constructor; vm_compute; discriminate.
Defined.

(** ** The cash count *)








Section CashCount.
Context `{Builtins}.
Import FundCheck.

(** Whatever is typed or passed as a count, what is stored for the
    denomination is an integer that is not negative; the counts of the
    other denominations, the fund and the small change are untouched. *)
Theorem stored_count_is_valid (denomination : Z) (value : string + number)
    (st : State) :
  let st' := handleCountChange denomination value st in
  (exists k : Z, counts st' !! denomination = Some (Num k) /\ (0 <= k)%Z) /\
  (forall d, d <> denomination -> counts st' !! d = counts st !! d) /\
  targetFund st' = targetFund st /\ smallChange st' = smallChange st.
Proof.
  cbn zeta. unfold handleCountChange. cbn [counts targetFund smallChange].
  split_and!; [|intros d Hd; by rewrite lookup_insert_ne|done..].
  rewrite lookup_insert_eq.
  destruct (match value with inl text => parseInt text | inr n => n end) as [|k];
    simpl; [by exists 0%Z|].
  destruct (Z.ltb_spec k 0); [by exists 0%Z|by exists k].
Qed.


End CashCount.






(** ** Selections *)

Lemma toggleBonusItem_elem (index : nat) (prev : list nat) :
  (index ∈ Bonus.toggleBonusItem index prev <-> index ∉ prev) /\
  (forall j, j <> index -> j ∈ Bonus.toggleBonusItem index prev <-> j ∈ prev).
Proof.
  unfold Bonus.toggleBonusItem. case_bool_decide as Hin.
  - split.
    + rewrite list_elem_of_In, filter_In, Nat.eqb_refl. simpl.
      split; [by intros [_ ?]|done].
    + intros j Hj. rewrite !list_elem_of_In, filter_In.
      destruct (Nat.eqb_spec j index); [done|]. simpl. tauto.
  - split.
    + rewrite elem_of_app, list_elem_of_singleton. tauto.
    + intros j Hj. rewrite elem_of_app, list_elem_of_singleton. tauto.
Qed.

(** Toggling an index flips that index and no other: afterwards it is
    excluded exactly when it was not before, and every other index is
    excluded exactly when it was.  A list without duplicates stays
    without duplicates. *)
Theorem toggleBonusItem_flips_one_index (index : nat) (prev : list nat) :
  (index ∈ Bonus.toggleBonusItem index prev <-> index ∉ prev) /\
  (forall j, j <> index -> j ∈ Bonus.toggleBonusItem index prev <-> j ∈ prev) /\
  (NoDup prev -> NoDup (Bonus.toggleBonusItem index prev)).
Proof.
  destruct (toggleBonusItem_elem index prev) as [Hflip Hother].
  split_and!; [exact Hflip|exact Hother|].
  intros Hnd. unfold Bonus.toggleBonusItem. case_bool_decide as Hin.
  - by apply NoDup_ListNoDup, List.NoDup_filter, NoDup_ListNoDup.
  - apply NoDup_app. split_and!; [done| |apply NoDup_singleton].
    intros x Hx ->%list_elem_of_singleton. done.
Qed.

Lemma activeBonusItems_ext (bonusItems : list Bonus.BonusItem) (e1 e2 : list nat) :
  (forall j, j ∈ e1 <-> j ∈ e2) ->
  Bonus.activeBonusItems bonusItems e1 = Bonus.activeBonusItems bonusItems e2.
Proof.
  intros Hsame. unfold Bonus.activeBonusItems. f_equal. apply filter_ext.
  intros [j item]. simpl. f_equal. apply bool_decide_ext, Hsame.
Qed.

(** Toggling the same item twice brings back the same active items and
    the same total, also when the list of excluded indices comes back in
    another order. *)
Theorem toggleBonusItem_twice (index : nat) (bonusItems : list Bonus.BonusItem)
    (excluded : list nat) :
  let excluded' := Bonus.toggleBonusItem index (Bonus.toggleBonusItem index excluded) in
  (forall j, j ∈ excluded' <-> j ∈ excluded) /\
  Bonus.activeBonusItems bonusItems excluded'
  = Bonus.activeBonusItems bonusItems excluded /\
  Bonus.totalBonus bonusItems excluded' = Bonus.totalBonus bonusItems excluded.
Proof.
  intros excluded'.
  assert (Hsame : forall j, j ∈ excluded' <-> j ∈ excluded).
  { intros j. unfold excluded'.
    pose proof (toggleBonusItem_elem index excluded) as (H1 & H2).
    pose proof (toggleBonusItem_elem index
                  (Bonus.toggleBonusItem index excluded)) as (H3 & H4).
    destruct (decide (j = index)) as [->|Hne].
    - rewrite H3, H1. destruct (decide (index ∈ excluded)); tauto.
    - by rewrite (H4 j Hne), (H2 j Hne). }
  split; [exact Hsame|]. unfold Bonus.totalBonus.
  by rewrite (activeBonusItems_ext _ _ _ Hsame).
Qed.

Lemma filter_all {A : Type} (f : A -> bool) (l : list A) :
  (forall x, In x l -> f x = true) -> List.filter f l = l.
Proof.
  induction l as [|a l IH]; intros Hall; simpl; [done|].
  rewrite (Hall a (or_introl eq_refl)). f_equal. apply IH.
  intros x Hx. apply Hall. by right.
Qed.

(** What is printed.  Selecting a code that is not selected adds to the
    printed items every item with that code and takes none away; ticking
    the select-all box prints every item, clearing it prints none. *)
Theorem posm_selection_prints (posmItems : list Posm.PosmChangeItem)
    (selected : list string) (code : string) :
  (code ∉ selected ->
   forall item,
     In item (Posm.itemsToPrint posmItems (Posm.handlePosmSelect code selected)) <->
     In item (Posm.itemsToPrint posmItems selected)
     \/ (In item posmItems /\ Posm.productCode item = code)) /\
  (code ∈ selected ->
   forall item,
     In item (Posm.itemsToPrint posmItems (Posm.handlePosmSelect code selected)) <->
     In item (Posm.itemsToPrint posmItems selected) /\ Posm.productCode item <> code) /\
  Posm.itemsToPrint posmItems (Posm.handlePosmSelectAll true posmItems) = posmItems /\
  Posm.itemsToPrint posmItems (Posm.handlePosmSelectAll false posmItems) = [].
Proof.
  unfold Posm.itemsToPrint, Posm.handlePosmSelect, Posm.handlePosmSelectAll.
  split_and!.
  - intros Hout item. rewrite bool_decide_eq_false_2 by done.
    rewrite !filter_In, !bool_decide_eq_true, elem_of_app, list_elem_of_singleton.
    tauto.
  - intros Hin item. rewrite bool_decide_eq_true_2 by done.
    rewrite !filter_In, !bool_decide_eq_true, list_elem_of_In, filter_In.
    rewrite negb_true_iff, String.eqb_neq, <- !list_elem_of_In. tauto.
  - apply filter_all. intros item Hitem. apply bool_decide_eq_true_2.
    apply list_elem_of_fmap. exists item. split; [done|]. by apply list_elem_of_In.
  - by induction posmItems as [|item items IH].
Qed.

(** ** The exports *)

Lemma checkRow_status (item : ExcelCheck.ExcelCheckItem) :
  (Exported.rowStatus (Exported.checkRow item) = "Chưa kiểm"
   <-> ExcelCheck.actualQuantity item = None) /\
  (Exported.rowStatus (Exported.checkRow item) = "Khớp" <-> isMatched item = true) /\
  (isMismatched item = true <->
   Exported.rowStatus (Exported.checkRow item) <> "Chưa kiểm"
   /\ Exported.rowStatus (Exported.checkRow item) <> "Khớp").
Proof.
  unfold Exported.checkRow, isMatched, isMismatched, difference.
  cbn [Exported.rowStatus].
  destruct (ExcelCheck.actualQuantity item) as [actual|];
    cbn [fmap option_fmap option_map].
  - destruct (sub actual (ExcelCheck.fileQuantity item)) as [|d];
      cbn [strictEq gtNumber ltNumber];
      [|destruct (Z.eqb_spec d 0) as [->|Hd]; [|destruct (0 <? d)%Z]];
      cbn [negb]; repeat split; intros; simpl in *;
      try discriminate; try done; try (destruct_and?; congruence).
  - repeat split; intros; try discriminate; try done. by destruct_and?.
Qed.

(** The exported sheet and the summary agree.  There is one row per
    record, in load order; a record that is not counted has the status
    "Chưa kiểm" and an empty difference; the rows with the status "Khớp"
    are as many as the matched count and the rows with another status
    than these two as many as the mismatched count. *)
Theorem export_agrees_with_summary (items : list ExcelCheck.ExcelCheckItem) :
  let rows := map Exported.checkRow items in
  (items <> [] -> Exported.checkRows items = Some rows) /\
  (forall i item, items !! i = Some item ->
     exists row, rows !! i = Some row /\
       (ExcelCheck.actualQuantity item = None <->
        Exported.rowStatus row = "Chưa kiểm") /\
       (ExcelCheck.actualQuantity item = None -> Exported.rowDifference row = None)) /\
  countIf (fun row => String.eqb (Exported.rowStatus row) "Khớp") rows
  = ExcelCheck.matchedCount (ExcelCheck.excelCheckStats items) /\
  countIf (fun row => negb (String.eqb (Exported.rowStatus row) "Khớp")
                      && negb (String.eqb (Exported.rowStatus row) "Chưa kiểm")) rows
  = ExcelCheck.mismatchedCount (ExcelCheck.excelCheckStats items).
Proof.
  intros rows. unfold ExcelCheck.excelCheckStats. rewrite fold_statsStep.
  cbn [ExcelCheck.matchedCount ExcelCheck.mismatchedCount]. rewrite !Z.add_0_l.
  split_and!.
  - unfold Exported.checkRows. by destruct items.
  - intros i item Hi. exists (Exported.checkRow item). split_and!.
    + unfold rows. change map with (@fmap list _). by rewrite list_lookup_fmap, Hi.
    + symmetry. apply checkRow_status.
    + unfold Exported.checkRow. cbn [Exported.rowDifference]. by intros ->.
  - unfold rows. clear rows. induction items as [|item items IH]; [done|].
    cbn [map]. rewrite !countIf_cons, IH. f_equal.
    destruct (checkRow_status item) as (_ & Hmatched & _).
    destruct (String.eqb_spec (Exported.rowStatus (Exported.checkRow item)) "Khớp") as [He|Hne].
    + by rewrite (proj1 Hmatched He).
    + destruct (isMatched item); [by destruct Hne; apply Hmatched|done].
  - unfold rows. clear rows. induction items as [|item items IH]; [done|].
    cbn [map]. rewrite !countIf_cons, IH. f_equal.
    destruct (checkRow_status item) as (_ & _ & Hmis).
    destruct (isMismatched item).
    + destruct (proj1 Hmis eq_refl) as [H1 H2].
      apply String.eqb_neq in H1, H2. by rewrite H1, H2.
    + destruct (String.eqb_spec (Exported.rowStatus (Exported.checkRow item)) "Khớp");
        [done|].
      destruct (String.eqb_spec (Exported.rowStatus (Exported.checkRow item)) "Chưa kiểm");
        [done|].
      exfalso. assert (false = true); [|done]. by apply Hmis.
Qed.

Lemma sumNumbers_NaN (l : list number) : In NaN l -> sumNumbers l = NaN.
Proof.
  induction l as [|a l IH]; [done|]. intros [->|Hin]; [done|].
  simpl. rewrite (IH Hin). by destruct a.
Qed.

Lemma fold_left_add_values {A : Type} (f : A -> number) (l : list A) (acc : number) :
  fold_left (fun total x => add total (f x)) l acc
  = add acc (sumNumbers (map f l)).
Proof.
  revert acc. induction l as [|a l IH]; intros acc; simpl.
  - by rewrite add_zero_r.
  - by rewrite IH, add_assoc.
Qed.

(** One quantity that was read as NaN spoils the totals: the total
    expected quantity of the summary is NaN as soon as one record has a
    NaN quantity, and the grand total of the export of unchecked records
    is NaN as soon as one unchecked record has one. *)
Theorem nan_quantity_spoils_totals :
  (forall (items : list ExcelCheck.ExcelCheckItem) (item : ExcelCheck.ExcelCheckItem),
      In item items -> ExcelCheck.fileQuantity item = NaN ->
      ExcelCheck.totalFileQuantity (ExcelCheck.excelCheckStats items) = NaN) /\
  (forall (items : list Inventory.InventoryItem) (item : Inventory.InventoryItem),
      In item items -> Inventory.checked item = false ->
      Inventory.quantity item = NaN ->
      exists rows, Exported.uncheckedExport items = Some (rows, NaN)).
Proof.
  split.
  - intros items item Hin Hnan. unfold ExcelCheck.excelCheckStats.
    rewrite fold_statsStep. cbn [ExcelCheck.totalFileQuantity].
    rewrite add_zero_l. apply sumNumbers_NaN. rewrite <- Hnan. by apply in_map.
  - intros items item Hin Hunchecked Hnan. unfold Exported.uncheckedExport.
    assert (Hu : In item (Exported.uncheckedItems items)).
    { apply filter_In. split; [done|]. by rewrite Hunchecked. }
    destruct (Exported.uncheckedItems items) as [|u us] eqn:Hus; [done|].
    eexists. f_equal. f_equal. rewrite fold_left_add_values, add_zero_l.
    apply sumNumbers_NaN.
    assert (Hval : Exported.itemValue item = NaN).
    { unfold Exported.itemValue. by rewrite Hnan. }
    rewrite <- Hval. by apply in_map.
Qed.

Lemma uncheckedExport_Some (items : list Inventory.InventoryItem) rows total :
  Exported.uncheckedExport items = Some (rows, total) ->
  rows = map (fun item => (item, Exported.itemValue item)) (Exported.uncheckedItems items)
  /\ total = fold_left (fun totalValue item => add totalValue (Exported.itemValue item))
               (Exported.uncheckedItems items) (Num 0).
Proof.
  unfold Exported.uncheckedExport.
  destruct (Exported.uncheckedItems items) as [|u us]; [done|]. by intros [= <- <-].
Qed.

(** The export of unchecked records lists exactly the unchecked records,
    in load order, and there is nothing to export exactly when every
    record is checked; checking a record takes it out of the export. *)
Theorem unchecked_export_exact (items : list Inventory.InventoryItem) :
  (Exported.uncheckedExport items = None <->
   Forall (fun item => Inventory.checked item = true) items) /\
  (forall rows total,
     Exported.uncheckedExport items = Some (rows, total) ->
     map fst rows = Exported.uncheckedItems items /\
     total = sumNumbers (map snd rows) /\
     forall item, In item (map fst rows) <->
                  In item items /\ Inventory.checked item = false).
Proof.
  unfold Exported.uncheckedExport. split.
  - transitivity (Exported.uncheckedItems items = []).
    + destruct (Exported.uncheckedItems items); split; done.
    + unfold Exported.uncheckedItems. induction items as [|item items IH]; simpl.
      * split; [constructor|done].
      * destruct (Inventory.checked item) eqn:Hc; simpl.
        -- rewrite IH. split; [by constructor|]. intros Hall.
           by apply Forall_cons in Hall as [_ ?].
        -- split; [done|]. intros Hall. apply Forall_cons in Hall as [? _]. congruence.
  - intros rows total Hexport.
    apply uncheckedExport_Some in Hexport as [-> ->].
    rewrite fold_left_add_values, add_zero_l, !map_map. cbn [fst snd].
    rewrite map_id. split_and!; [done..|].
    intros item. unfold Exported.uncheckedItems.
    rewrite filter_In, negb_true_iff. tauto.
Qed.

Lemma nan_quantity_spoils_totals_witness :
  ExcelCheck.totalFileQuantity
    (ExcelCheck.excelCheckStats
       (ExcelCheck.excelCheckItems
          (ExcelCheck.handleFileImportForExcelCheck
             (sheetA1B2 ++ sheetBadQuantity)%list emptyExcelCheck)))
  = NaN.
Proof.
  refine (proj1 nan_quantity_spoils_totals _
            (ExcelCheck.loadRow
               [("Tên sản phẩm", "Loa JBL"); ("Mã sản phẩm", "A1");
                ("Số lượng", "abc"); ("Giá bán", "abc")]) _ _).
  - right. right. left. reflexivity.
  - reflexivity.
Defined.
